(** * Face Filter Camera: adaptive rendering pipeline, shallow embedding

    Sources embedded:
    - [src/unnamed/part_004]           PerformanceManager, MemoryManager
    - [src/unnamed/part_000]           FaceFilterApp.animate
    - [src/unnamed/part_001]           filterDefinitions
    - [src/unnamed/part_005]           Camera.accessCamera, degradeConstraints
    - [src/src/config/constants.js]    PERFORMANCE, MORPH, LANDMARKS, CULLING,
                                       CAMERA_CONFIG, PERFORMANCE_DETECTION,
                                       MATH, ORBIT_SPEEDS
    - [src/src/utils/mathUtils.js]     init, fastSin, fastCos, getFacePoints,
                                       getFaceDimensions, isInViewport,
                                       shouldCullAnimation, bilinearSample
    - [src/src/utils/browserDetection.js] isMobile, isIOS, isSafari,
                                       getCameraConstraints
    - [src/src/filters/Filter.js]      Filter, ModelLoader.detectFaces,
                                       detectFacesSafari
    - [src/src/filters/MorphFilter.js] calculateProcessingRegion, draw guard,
                                       getMorphingLandmarks, adjustForPerformance,
                                       influence functions, inverseTransformPoint
    - [src/src/filters/AnimatedFilter.js] drawMovingDot, drawSwimmingFish
                                       (positions)
    - [src/src/filters/FilterRenderer.js] constructor, initFilters, setFilter,
                                       render, getAvailableFilters

    Integer-valued quantities (frame counters, tiers' integer settings, pixel
    bytes, canvas sizes) are [Z]; coordinates handled with floor/ceil/round are
    exact rationals [Q]; the morph influence computations and
    inverseTransformPoint are in IEEE 754 binary64 ([F64], over Stdlib's
    [spec_float]), with the engine's [Math.cos] and [Math.pow] a parameter;
    the face-movement average and the lookup-table positions are over [R]
    extended with [NaN] and the two infinities ([JsNum]), rounding aside. *)

From Stdlib Require Import ZArith QArith Qround Qabs Qminmax List Bool Lia Lra.
From Stdlib Require Import Reals Qreals.
From Stdlib Require Import Floats.SpecFloat.
From Stdlib Require String Ascii.
Import String.StringSyntax.
Import ListNotations.

Open Scope Z_scope.

(* ================================================================== *)
(** ** Configuration: [PERFORMANCE] (constants.js, lines 7-38) *)

Inductive tier := HIGH | MEDIUM | LOW.

Record perfConfig := {
  maxFaces : Z;
  skipFrames : Z;
  shadowBlur : Z;
  particleCount : Z;
  targetFPS : Z
}.

(** [PERFORMANCE[level.toUpperCase()]]; the fractional fields
    (animationSpeed, detectionConfidence) and cleanupInterval are not read by
    the code embedded here. *)
Definition PERFORMANCE (t : tier) : perfConfig :=
  match t with
  | HIGH   => {| maxFaces := 5; skipFrames := 1; shadowBlur := 10;
                 particleCount := 8; targetFPS := 30 |}
  | MEDIUM => {| maxFaces := 3; skipFrames := 2; shadowBlur := 5;
                 particleCount := 6; targetFPS := 24 |}
  | LOW    => {| maxFaces := 1; skipFrames := 5; shadowBlur := 0;
                 particleCount := 4; targetFPS := 20 |}
  end.

(* ================================================================== *)
(** ** PerformanceManager (part_004, lines 103-373) *)

Module PerformanceManager.

(** A JS number produced by [Math.round(1000 / deltaTime)]: a finite integer,
    or [Infinity] when [deltaTime] is 0. *)
Inductive fpsValue := FpsNum (z : Z) | FpsInfinity.

Record state := {
  performanceLevel : tier;
  fps : fpsValue;
  frameCount : Z;
  dynamicSkipInterval : Z;
  memoryPressureLevel : Z
}.

(** constructor (lines 104-114) *)
Definition init : state :=
  {| performanceLevel := HIGH; fps := FpsNum 0; frameCount := 0;
     dynamicSkipInterval := 1; memoryPressureLevel := 0 |}.

(** [Math.round(v)] is [floor(v + 1/2)]. *)
Definition js_round (v : Q) : Z := Qfloor (v + (1 # 2)).

(** [Math.round(1000 / deltaTime)] *)
Definition fps_of (deltaTime : Q) : fpsValue :=
  if Qeq_bool deltaTime 0 then FpsInfinity
  else FpsNum (js_round (1000 / deltaTime)).

Definition fps_lt (f : fpsValue) (z : Z) : bool :=
  match f with FpsNum n => n <? z | FpsInfinity => false end.

Definition fps_gt (f : fpsValue) (z : Z) : bool :=
  match f with FpsNum n => z <? n | FpsInfinity => true end.

(** updateFPS (lines 238-258) *)
Definition updateFPS (s : state) (deltaTime : Q) : state :=
  let frameCount' := frameCount s + 1 in
  if Z.eqb (frameCount' mod 30) 0 then
    let fps' := fps_of deltaTime in
    let target := targetFPS (PERFORMANCE (performanceLevel s)) in
    if fps_lt fps' (target - 5) then
      {| performanceLevel :=
           match performanceLevel s with
           | HIGH => MEDIUM
           | MEDIUM => LOW
           | LOW => LOW
           end;
         fps := fps'; frameCount := frameCount';
         dynamicSkipInterval := Z.min (dynamicSkipInterval s + 1) 5;
         memoryPressureLevel := memoryPressureLevel s |}
    else if fps_gt fps' (target + 5) && (1 <? dynamicSkipInterval s) then
      {| performanceLevel := performanceLevel s;
         fps := fps'; frameCount := frameCount';
         dynamicSkipInterval := Z.max (dynamicSkipInterval s - 1) 1;
         memoryPressureLevel := memoryPressureLevel s |}
    else
      {| performanceLevel := performanceLevel s;
         fps := fps'; frameCount := frameCount';
         dynamicSkipInterval := dynamicSkipInterval s;
         memoryPressureLevel := memoryPressureLevel s |}
  else
    {| performanceLevel := performanceLevel s; fps := fps s;
       frameCount := frameCount';
       dynamicSkipInterval := dynamicSkipInterval s;
       memoryPressureLevel := memoryPressureLevel s |}.

(** A run of updateFPS calls, one deltaTime per frame. *)
Definition run (s : state) (deltas : list Q) : state :=
  fold_left updateFPS deltas s.

(** getQualitySettings (lines 221-232) *)
Definition getQualitySettings (s : state) : perfConfig :=
  let settings := PERFORMANCE (performanceLevel s) in
  let p := memoryPressureLevel s in
  if 0 <? p then
    {| maxFaces := maxFaces settings;
       skipFrames := Z.min (skipFrames settings + p) 5;
       particleCount := Z.max (particleCount settings - p) 1;
       shadowBlur := Z.max (shadowBlur settings - p * 2) 0;
       targetFPS := targetFPS settings |}
  else settings.

End PerformanceManager.

(* ================================================================== *)
(** ** Landmark snapshots *)

Module Snapshot.

(** A landmark point [x, y, depth]. *)
Definition point3 : Type := (Q * Q * Q)%type.

(** A detected face: its [scaledMesh] and the rest of the detector's object,
    which [{ ...face, scaledMesh }] copies unchanged. *)
Record face := {
  scaledMesh : list point3;
  faceRest : list Q
}.

End Snapshot.
Export Snapshot.

(* ================================================================== *)
(** ** interpolateFaces (part_004, lines 310-336) *)

Module Interpolation.
Local Open Scope Q_scope.

(** [faces.map((face, index) => ...)]: a map that also passes the index. *)
Fixpoint mapi_from {A B : Type} (f : nat -> A -> B) (i : nat) (l : list A)
  : list B :=
  match l with
  | [] => []
  | a :: l' => f i a :: mapi_from f (S i) l'
  end.

Definition mapi {A B : Type} (f : nat -> A -> B) (l : list A) : list B :=
  mapi_from f 0 l.

Definition blend (progress : Q) (cachedPoint point : point3) : point3 :=
  let '(cx, cy, cz) := cachedPoint in
  let '(px, py, pz) := point in
  (cx + (px - cx) * progress, cy + (py - cy) * progress,
   cz + (pz - cz) * progress).

(** The face callback of [faces.map]; [index >= this.cachedFaces.length]
    is [nth_error cachedFaces index = None]. *)
Definition interpolate_face (cachedFaces : list face) (progress : Q)
    (index : nat) (f : face) : face :=
  match nth_error cachedFaces index with
  | None => f
  | Some cached =>
      {| scaledMesh :=
           mapi (fun pointIndex point =>
                   match nth_error (scaledMesh cached) pointIndex with
                   | None => point
                   | Some cachedPoint => blend progress cachedPoint point
                   end) (scaledMesh f);
         faceRest := faceRest f |}
  end.

(** interpolateFaces(faces, progress): [this.cachedFaces] is [None] while it
    is [null]; returns the new cache and the result. *)
Definition interpolateFaces (cachedFaces : option (list face))
    (faces : list face) (progress : Q) : option (list face) * list face :=
  match cachedFaces with
  | None => (Some faces, faces)
  | Some cached =>
      match faces with
      | [] => (Some faces, faces)
      | _ :: _ => (Some faces, mapi (interpolate_face cached progress) faces)
      end
  end.

(** The default blend factor [progress = 0.3]. *)
Definition INTERPOLATION_FACTOR : Q := 3 # 10.

End Interpolation.

(* ================================================================== *)
(** ** Geometry utilities (mathUtils.js, lines 128-239) *)

Module Geometry.
Local Open Scope Q_scope.

(** A JS computation that returns a value or throws (a [TypeError] from
    indexing [undefined]). *)
Inductive jsResult (A : Type) := Ok (a : A) | Throw.
Arguments Ok {A} a.
Arguments Throw {A}.

Definition bind {A B : Type} (m : jsResult A) (k : A -> jsResult B)
  : jsResult B :=
  match m with Ok a => k a | Throw => Throw end.

Notation "x <- m ;; k" := (bind m (fun x => k))
  (at level 61, m at next level, right associativity).

(** [LANDMARKS] (constants.js, lines 150-181), the indices read here. *)
Definition NOSE_TIP : nat := 1.
Definition LEFT_EYE : nat := 33.
Definition RIGHT_EYE : nat := 263.
Definition FOREHEAD_CENTER : nat := 9.
Definition LEFT_MOUTH : nat := 61.
Definition RIGHT_MOUTH : nat := 291.
Definition LEFT_CHEEK : nat := 116.
Definition RIGHT_CHEEK : nat := 345.

(** [CULLING.MAX_FILTER_RADIUS_MULTIPLIER] *)
Definition MAX_FILTER_RADIUS_MULTIPLIER : Q := 8 # 10.

(** getFacePoints: each field is [mesh[index]], [undefined] ([None]) when
    the mesh has no entry there. *)
Record facePoints := {
  noseTip : option point3;
  leftEye : option point3;
  rightEye : option point3;
  foreheadCenter : option point3;
  leftMouth : option point3;
  rightMouth : option point3;
  leftCheek : option point3;
  rightCheek : option point3
}.

Definition getFacePoints (f : face) : facePoints :=
  let mesh := scaledMesh f in
  {| noseTip := nth_error mesh NOSE_TIP;
     leftEye := nth_error mesh LEFT_EYE;
     rightEye := nth_error mesh RIGHT_EYE;
     foreheadCenter := nth_error mesh FOREHEAD_CENTER;
     leftMouth := nth_error mesh LEFT_MOUTH;
     rightMouth := nth_error mesh RIGHT_MOUTH;
     leftCheek := nth_error mesh LEFT_CHEEK;
     rightCheek := nth_error mesh RIGHT_CHEEK |}.

(** [p[0]] and [p[1]]: reading a component of [undefined] throws. *)
Definition coord0 (p : option point3) : jsResult Q :=
  match p with Some (x, _, _) => Ok x | None => Throw end.
Definition coord1 (p : option point3) : jsResult Q :=
  match p with Some (_, y, _) => Ok y | None => Throw end.

Record faceDimensions := {
  faceWidth : Q;
  faceHeight : Q;
  eyeCenter : Q * Q
}.

(** getFaceDimensions, reading the components in the source's order. *)
Definition getFaceDimensions (pts : facePoints) : jsResult faceDimensions :=
  rx <- coord0 (rightEye pts) ;; lx <- coord0 (leftEye pts) ;;
  fy <- coord1 (foreheadCenter pts) ;; ny <- coord1 (noseTip pts) ;;
  ly <- coord1 (leftEye pts) ;; ry <- coord1 (rightEye pts) ;;
  Ok {| faceWidth := Qabs (rx - lx);
        faceHeight := Qabs (fy - ny);
        eyeCenter := ((lx + rx) / 2, (ly + ry) / 2) |}.

(** isInViewport *)
Definition isInViewport (x y radius : Q) (canvasWidth canvasHeight : Z)
  : bool :=
  Qle_bool 0 (x + radius) && Qle_bool (x - radius) (inject_Z canvasWidth) &&
  Qle_bool 0 (y + radius) && Qle_bool (y - radius) (inject_Z canvasHeight).

(** shouldCullAnimation *)
Definition shouldCullAnimation (f : face) (canvasWidth canvasHeight : Z)
  : jsResult bool :=
  let points := getFacePoints f in
  dims <- getFaceDimensions points ;;
  let maxRadius := faceWidth dims * MAX_FILTER_RADIUS_MULTIPLIER in
  nx <- coord0 (noseTip points) ;; ny <- coord1 (noseTip points) ;;
  Ok (negb (isInViewport nx ny maxRadius canvasWidth canvasHeight)).

(** [Math.round] *)
Definition js_round (v : Q) : Z := Qfloor (v + (1 # 2)).

(** [imageData[index] || dflt]: an index past the end reads [undefined];
    both it and a stored 0 are falsy and give [dflt]. *)
Definition read_or (imageData : list Z) (index : Z) (dflt : Z) : Z :=
  match index with
  | Zneg _ => dflt
  | _ => match nth_error imageData (Z.to_nat index) with
         | None => dflt
         | Some 0%Z => dflt
         | Some v => v
         end
  end.

(** bilinearSample (lines 203-239); [imageData] is the Uint8ClampedArray,
    4 bytes per pixel. *)
Definition bilinearSample (imageData : list Z) (x y : Q) (width height : Z)
  : list Z :=
  let x := Qmax 0 (Qmin (inject_Z (width - 1)) x) in
  let y := Qmax 0 (Qmin (inject_Z (height - 1)) y) in
  let x1 := Qfloor x in
  let y1 := Qfloor y in
  let x2 := Z.min (x1 + 1) (width - 1) in
  let y2 := Z.min (y1 + 1) (height - 1) in
  let fx := x - inject_Z x1 in
  let fy := y - inject_Z y1 in
  let getPixel (px py : Z) : list Q :=
    let index := ((py * width + px) * 4)%Z in
    [inject_Z (read_or imageData index 0);
     inject_Z (read_or imageData (index + 1) 0);
     inject_Z (read_or imageData (index + 2) 0);
     inject_Z (read_or imageData (index + 3) 255)] in
  let p1 := getPixel x1 y1 in
  let p2 := getPixel x2 y1 in
  let p3 := getPixel x1 y2 in
  let p4 := getPixel x2 y2 in
  map (fun i =>
         let top := nth i p1 0 * (1 - fx) + nth i p2 0 * fx in
         let bottom := nth i p3 0 * (1 - fx) + nth i p4 0 * fx in
         js_round (top * (1 - fy) + bottom * fy))
      [0; 1; 2; 3]%nat.

End Geometry.

(* ================================================================== *)
(** ** FilterRenderer.render (FilterRenderer.js, lines 68-94) *)

Module Renderer.
Import Geometry.

Section Render.
(** The canvas state, the filter objects of [this.filters], and a filter's
    [draw(ctx, face, animationTime, settings)] for this call's fixed
    [animationTime] and settings: the canvas after the call, and whether the
    call threw (what it drew before throwing stays on the canvas). *)
Variable canvas : Type.
Variable filter : Type.
Variable draw : filter -> face -> canvas -> canvas * bool.

(** The [faces.forEach] callback; the cull check runs outside the [try],
    a throw of [draw] is caught. *)
Definition render_face (filt : filter) (canvasWidth canvasHeight : Z)
    (f : face) (ctx : canvas) : jsResult canvas :=
  cull <- shouldCullAnimation f canvasWidth canvasHeight ;;
  if cull then Ok ctx
  else let '(ctx', _threw) := draw filt f ctx in Ok ctx'.

(** [faces.forEach(...)]: a throw escaping the callback ends the loop. *)
Fixpoint render_faces (filt : filter) (canvasWidth canvasHeight : Z)
    (faces : list face) (ctx : canvas) : jsResult canvas :=
  match faces with
  | [] => Ok ctx
  | f :: rest =>
      ctx' <- render_face filt canvasWidth canvasHeight f ctx ;;
      render_faces filt canvasWidth canvasHeight rest ctx'
  end.

(** render(ctx, faces, qualitySettings): [current] is
    [this.filters.get(this.currentFilterName)], [None] for ['none'] or a
    missing filter. *)
Definition render (current : option filter) (canvasWidth canvasHeight : Z)
    (faces : list face) (ctx : canvas) : jsResult canvas :=
  match current, faces with
  | None, _ => Ok ctx
  | _, [] => Ok ctx
  | Some filt, _ => render_faces filt canvasWidth canvasHeight faces ctx
  end.

End Render.

End Renderer.

(* ================================================================== *)
(** ** MorphFilter: processing region (MorphFilter.js, lines 41-71, 141-156) *)

Module Region.
Local Open Scope Q_scope.

(** The region fields of [MORPH.HIGH / MEDIUM / LOW]. *)
Record regionConfig := {
  paddingMultiplier : Q;
  faceMultiplier : Q;
  heightMultiplier : Q
}.

Definition MORPH_region (t : tier) : regionConfig :=
  match t with
  | HIGH => {| paddingMultiplier := 8 # 10; faceMultiplier := 12 # 10;
               heightMultiplier := 13 # 10 |}
  | MEDIUM => {| paddingMultiplier := 6 # 10; faceMultiplier := 1;
                 heightMultiplier := 11 # 10 |}
  | LOW => {| paddingMultiplier := 4 # 10; faceMultiplier := 8 # 10;
              heightMultiplier := 9 # 10 |}
  end.

Record region := { minX : Z; minY : Z; width : Z; height : Z }.

(** calculateProcessingRegion *)
Definition calculateProcessingRegion (eyeCenter : Q * Q)
    (faceWidth faceHeight : Q) (canvasWidth canvasHeight : Z)
    (performanceLevel : tier) : region :=
  let config := MORPH_region performanceLevel in
  let padding := Qmax faceWidth faceHeight * paddingMultiplier config in
  let minX := Z.max 0 (Qfloor (fst eyeCenter - faceWidth * faceMultiplier config - padding)) in
  let maxX := Z.min canvasWidth (Qceiling (fst eyeCenter + faceWidth * faceMultiplier config + padding)) in
  let minY := Z.max 0 (Qfloor (snd eyeCenter - faceHeight * heightMultiplier config - padding)) in
  let maxY := Z.min canvasHeight (Qceiling (snd eyeCenter + faceHeight * heightMultiplier config + padding)) in
  {| minX := minX; minY := minY; width := maxX - minX; height := maxY - minY |}.

(** draw, line 71: [if (region.width <= 0 || region.height <= 0) return;]
    [None] is that early return; otherwise the region whose pixels the rest
    of draw reads and writes back. *)
Definition draw_region (r : region) : option region :=
  if (width r <=? 0)%Z || (height r <=? 0)%Z then None else Some r.

End Region.

(* ================================================================== *)
(** ** JS numbers as reals with NaN and infinities (rounding aside) *)

Module JsNum.
Local Open Scope R_scope.

(** A JS number: a finite real, [NaN], [+Infinity] or [-Infinity], with one
    zero; the arithmetic is exact, not rounded to binary64. *)
Inductive num := Fin (r : R) | NaN | PInf | NInf.

Definition neg (a : num) : num :=
  match a with Fin r => Fin (- r) | NaN => NaN | PInf => NInf | NInf => PInf end.

Definition add (a b : num) : num :=
  match a, b with
  | NaN, _ | _, NaN => NaN
  | Fin x, Fin y => Fin (x + y)
  | PInf, NInf | NInf, PInf => NaN
  | PInf, _ | _, PInf => PInf
  | NInf, _ | _, NInf => NInf
  end.

Definition sub (a b : num) : num := add a (neg b).

(** [Infinity] times a finite [x]: NaN for 0, else signed by [x]. *)
Definition inf_times (pos : bool) (x : R) : num :=
  if Req_EM_T x 0 then NaN
  else if Rlt_dec 0 x then (if pos then PInf else NInf)
  else (if pos then NInf else PInf).

Definition mul (a b : num) : num :=
  match a, b with
  | NaN, _ | _, NaN => NaN
  | Fin x, Fin y => Fin (x * y)
  | PInf, Fin x | Fin x, PInf => inf_times true x
  | NInf, Fin x | Fin x, NInf => inf_times false x
  | PInf, PInf | NInf, NInf => PInf
  | PInf, NInf | NInf, PInf => NInf
  end.

Definition div (a b : num) : num :=
  match a, b with
  | NaN, _ | _, NaN => NaN
  | Fin x, Fin y =>
      if Req_EM_T y 0 then
        (if Req_EM_T x 0 then NaN else if Rlt_dec 0 x then PInf else NInf)
      else Fin (x / y)
  | Fin _, PInf | Fin _, NInf => Fin 0
  | PInf, Fin y => if Rle_dec 0 y then PInf else NInf
  | NInf, Fin y => if Rle_dec 0 y then NInf else PInf
  | _, _ => NaN
  end.

(** [Math.abs] *)
Definition abs (a : num) : num :=
  match a with Fin r => Fin (Rabs r) | NaN => NaN | _ => PInf end.

(** [Math.sqrt] *)
Definition sqrt_js (a : num) : num :=
  match a with
  | Fin r => if Rlt_dec r 0 then NaN else Fin (sqrt r)
  | PInf => PInf
  | _ => NaN
  end.

(** [Math.cos] *)
Definition cos_js (a : num) : num :=
  match a with Fin r => Fin (cos r) | _ => NaN end.

(** [Math.pow(b, 2)] *)
Definition pow2 (b : num) : num := mul b b.

(** [Math.pow(b, e)] for the positive non-integer exponents used (0.7, 0.6). *)
Definition powr (b : num) (e : R) : num :=
  match b with
  | Fin r => if Rlt_dec 0 r then Fin (Rpower r e)
             else if Req_EM_T r 0 then Fin 0 else NaN
  | PInf | NInf => PInf
  | NaN => NaN
  end.

(** [a < b], false when either is NaN. *)
Definition lt (a b : num) : bool :=
  match a, b with
  | Fin x, Fin y => if Rlt_dec x y then true else false
  | NInf, Fin _ | NInf, PInf | Fin _, PInf => true
  | _, _ => false
  end.

Definition gt (a b : num) : bool := lt b a.

(** [Math.max(a, b)]: NaN when either is NaN. *)
Definition max (a b : num) : num :=
  match a, b with
  | NaN, _ | _, NaN => NaN
  | _, _ => if lt a b then b else a
  end.

End JsNum.

(* ================================================================== *)
(** ** JS numbers as IEEE 754 binary64 *)

Module F64.

(** A JS number: Stdlib's [spec_float] at 53 bits of precision and maximal
    exponent 1024, with round-to-nearest-even arithmetic. *)
Definition float : Type := spec_float.
Definition prec : Z := 53.
Definition emax : Z := 1024.

Definition add (a b : float) : float := SFadd prec emax a b.
Definition sub (a b : float) : float := SFsub prec emax a b.
Definition mul (a b : float) : float := SFmul prec emax a b.
Definition div (a b : float) : float := SFdiv prec emax a b.

(** [Math.sqrt] and [Math.abs] *)
Definition sqrt (a : float) : float := SFsqrt prec emax a.
Definition abs (a : float) : float := SFabs a.

(** An integer, and the decimal literal [m * 10^-k] (the quotient of two
    exactly representable integers, correctly rounded, is the double the JS
    parser gives for the literal). *)
Definition of_Z (k : Z) : float := binary_normalize prec emax k 0 false.
Definition dec (m : Z) (k : nat) : float := div (of_Z m) (of_Z (10 ^ Z.of_nat k)).

Definition zero : float := S754_zero false.
Definition nan : float := S754_nan.
Definition one : float := of_Z 1.
Definition two : float := of_Z 2.

(** [a > b]: false when either is NaN. *)
Definition gt (a b : float) : bool := SFltb b a.

(** [Math.max(a, b)]: NaN when either is NaN, and [+0] above [-0]. *)
Definition Math_max (a b : float) : float :=
  match a, b with
  | S754_nan, _ | _, S754_nan => S754_nan
  | S754_zero sa, S754_zero sb => S754_zero (sa && sb)
  | _, _ => if SFltb a b then b else a
  end.

(** [Math.PI], the double nearest to pi. *)
Definition PI : float := S754_finite false 7074237752028440 (-51).

(** [Math.cos] and [Math.pow] are approximated by the engine: what ECMAScript
    leaves to it is their value at a finite non-zero argument (for [pow], a
    finite positive base). *)
Record mathImpl := {
  cos_fin : float -> float;
  pow_fin : float -> float -> float
}.

(** [Math.cos]: 1 at [+-0], NaN at NaN and the infinities. *)
Definition Math_cos (M : mathImpl) (x : float) : float :=
  match x with
  | S754_zero _ => one
  | S754_infinity _ | S754_nan => nan
  | S754_finite _ _ _ => cos_fin M x
  end.

(** [Math.pow(b, e)] for a finite exponent [e > 0] that is not an integer
    (the code uses 0.7 and 0.6). *)
Definition Math_pow (M : mathImpl) (b e : float) : float :=
  match b with
  | S754_nan => nan
  | S754_infinity _ => S754_infinity false
  | S754_zero _ => zero
  | S754_finite true _ _ => nan
  | S754_finite false _ _ => pow_fin M b e
  end.

(** [Math.pow(b, 2)]: the correctly rounded square, [b * b]. *)
Definition pow2 (b : float) : float := mul b b.

(** A reference implementation of the engine's part of [Math.cos] and
    [Math.pow], by range reduction and truncated series, to run the
    definitions on concrete inputs. *)
Definition round_Z (f : float) : Z :=
  match f with
  | S754_finite s m e =>
      let z := if 0 <=? e then Z.shiftl (Zpos m) e
               else Z.shiftr (Zpos m + Z.shiftl 1 (- e - 1)) (- e) in
      if s then - z else z
  | _ => 0
  end.

Fixpoint horner (t : float) (cs : list float) : float :=
  match cs with [] => zero | c :: cs' => add c (mul t (horner t cs')) end.

Fixpoint fact_Z (n : nat) : Z :=
  match n with O => 1 | S k => Z.of_nat n * fact_Z k end.

Definition cos_coeffs : list float :=
  map (fun n => div (of_Z (if Nat.even n then 1 else -1)) (of_Z (fact_Z (2 * n))))
      (seq 0 16).
Definition exp_coeffs : list float :=
  map (fun n => div one (of_Z (fact_Z n))) (seq 0 22).
Definition atanh_coeffs : list float :=
  map (fun n => div one (of_Z (Z.of_nat (2 * n + 1)))) (seq 0 22).

Definition LN2 : float := dec 6931471805599453 16.
Definition TWO_PI : float := mul PI two.

Definition ref_cos (x : float) : float :=
  let r := sub x (mul (of_Z (round_Z (div x TWO_PI))) TWO_PI) in
  horner (mul r r) cos_coeffs.

Definition ref_ln (b : float) : float :=
  let '(m, ex) := SFfrexp prec emax b in
  let u := div (sub m one) (add m one) in
  add (mul (of_Z ex) LN2) (mul (mul two u) (horner (mul u u) atanh_coeffs)).

Definition ref_exp (t : float) : float :=
  let n := round_Z (div t LN2) in
  let r := sub t (mul (of_Z n) LN2) in
  SFldexp prec emax (horner r exp_coeffs) n.

Definition Math_ref : mathImpl :=
  {| cos_fin := ref_cos; pow_fin := fun b e => ref_exp (mul e (ref_ln b)) |}.

End F64.

(* ================================================================== *)
(** ** MorphFilter: influences and inverseTransformPoint
       (MorphFilter.js, lines 10-22, 193-321; MORPH, constants.js 107-147) *)

Module Morph.
Import F64.

Definition EYE_REGION_MULTIPLIER : float := dec 12 1.
Definition EYE_EXTREME_MULTIPLIER : float := dec 13 1.
Definition MOUTH_REGION_MULTIPLIER : float := dec 9 1.
Definition MOUTH_EXTREME_MULTIPLIER : float := dec 14 1.
Definition FACE_WIDTH_INFLUENCE : float := dec 6 1.
Definition FACE_HEIGHT_INFLUENCE : float := dec 6 1.
Definition FACE_SLIM_INTENSITY : float := dec 8 1.

(** The MorphFilter instance fields read by the transform. *)
Record morphState := {
  intensity : float;
  eyeScaleFactor : float;
  mouthScaleFactor : float;
  faceSlimFactor : float;
  jawReductionFactor : float
}.

(** [MORPH.HIGH], as set by adjustForPerformance('high'). *)
Definition MORPH_HIGH : morphState :=
  {| intensity := dec 10 1; eyeScaleFactor := dec 25 1; mouthScaleFactor := dec 22 1;
     faceSlimFactor := dec 85 2; jawReductionFactor := dec 9 1 |}.

(** The landmark object of getMorphingLandmarks, points as their [x], [y].
    Fields the code guards ([leftEyeCenter] and [rightEyeCenter] from
    [mesh[a] || mesh[b]], the mouth points, [mouthCenter]) are optional; the
    ones it indexes unguarded are present. *)
Record landmarks := {
  leftEyeCenter : option (float * float);
  rightEyeCenter : option (float * float);
  leftEyeInner : float * float;
  leftEyeOuter : float * float;
  faceLeft : float * float;
  faceRight : float * float;
  chinTip : float * float;
  foreheadCenter : float * float;
  mouthLeftCorner : option (float * float);
  mouthRightCorner : option (float * float);
  mouthTopCenter : option (float * float);
  mouthBottomCenter : option (float * float);
  mouthCenter : option (float * float)
}.

(** [p[0]] and [p[1]] *)
Definition X (p : float * float) : float := fst p.
Definition Y (p : float * float) : float := snd p.

Section Transform.
Variable M : mathImpl.

(** [Math.cos(d * Math.PI / 2)], raised to [e] in the extreme regime. *)
Definition falloff (extreme : bool) (e : float) (d : float) : float :=
  let c := Math_cos M (div (mul d PI) two) in
  if extreme then Math_pow M c e else c.

(** calculateEyeInfluence (lines 247-264) *)
Definition calculateEyeInfluence (st : morphState) (x y : float)
    (eyeCenter : option (float * float)) (lm : landmarks) : float :=
  match eyeCenter with
  | None => zero
  | Some c =>
      let distance := sqrt (add (pow2 (sub x (X c))) (pow2 (sub y (Y c)))) in
      let baseEyeRadius :=
        mul (abs (sub (X (leftEyeOuter lm)) (X (leftEyeInner lm)))) EYE_REGION_MULTIPLIER in
      let eyeRadius := mul baseEyeRadius
        (if gt (eyeScaleFactor st) (dec 20 1) then EYE_EXTREME_MULTIPLIER else dec 10 1) in
      if gt distance eyeRadius then zero
      else
        let normalizedDistance := div distance eyeRadius in
        falloff (gt (eyeScaleFactor st) (dec 20 1)) (dec 7 1) normalizedDistance
  end.

(** calculateFaceSlimInfluence (lines 269-289) *)
Definition calculateFaceSlimInfluence (x y : float) (lm : landmarks) : float :=
  let faceWidth := abs (sub (X (faceRight lm)) (X (faceLeft lm))) in
  let faceHeight := abs (sub (Y (foreheadCenter lm)) (Y (chinTip lm))) in
  let faceCenter := div (add (X (faceLeft lm)) (X (faceRight lm))) two in
  let faceCenterY := div (add (Y (foreheadCenter lm)) (Y (chinTip lm))) two in
  let distanceFromCenterX := abs (sub x faceCenter) in
  let distanceFromCenterY := abs (sub y faceCenterY) in
  if gt distanceFromCenterX (mul faceWidth FACE_WIDTH_INFLUENCE) ||
     gt distanceFromCenterY (mul faceHeight FACE_HEIGHT_INFLUENCE)
  then zero
  else
    let horizontalInfluence :=
      Math_max zero (sub one (div distanceFromCenterX (mul faceWidth (dec 3 1)))) in
    let verticalInfluence :=
      Math_max zero (sub one (div distanceFromCenterY (mul faceHeight (dec 6 1)))) in
    mul (mul horizontalInfluence verticalInfluence) FACE_SLIM_INTENSITY.

(** calculateMouthInfluence (lines 294-321); [distance] is computed and
    unused, as in the source. *)
Definition calculateMouthInfluence (st : morphState) (x y : float)
    (mouthCenter : option (float * float)) (lm : landmarks) : float :=
  match mouthCenter, mouthLeftCorner lm, mouthRightCorner lm with
  | Some c, Some l, Some r =>
      let _distance := sqrt (add (pow2 (sub x (X c))) (pow2 (sub y (Y c)))) in
      let mouthWidth := abs (sub (X r) (X l)) in
      let mouthHeight :=
        match mouthBottomCenter lm, mouthTopCenter lm with
        | Some b, Some t => abs (sub (Y b) (Y t))
        | _, _ => mul mouthWidth (dec 3 1)
        end in
      let scaleMultiplier :=
        if gt (mouthScaleFactor st) (dec 18 1) then MOUTH_EXTREME_MULTIPLIER else dec 10 1 in
      let mouthRadiusX := mul (mul mouthWidth MOUTH_REGION_MULTIPLIER) scaleMultiplier in
      let mouthRadiusY :=
        mul (Math_max (mul mouthHeight (dec 15 1)) (mul mouthWidth (dec 5 1))) scaleMultiplier in
      let normalizedX := div (sub x (X c)) mouthRadiusX in
      let normalizedY := div (sub y (Y c)) mouthRadiusY in
      let ellipticalDistance :=
        sqrt (add (mul normalizedX normalizedX) (mul normalizedY normalizedY)) in
      if gt ellipticalDistance (dec 10 1) then zero
      else falloff (gt (mouthScaleFactor st) (dec 18 1)) (dec 6 1) ellipticalDistance
  | _, _, _ => zero
  end.

End Transform.

(** Reverse face slimming (lines 198-205). *)
Definition slim_step (st : morphState) (faceCenter faceInfluence : float)
    (newX : float) : float :=
  if gt faceInfluence zero then
    let compressionFactor :=
      sub one (mul (mul (sub one (faceSlimFactor st)) faceInfluence) (intensity st)) in
    let expansionFactor := div one compressionFactor in
    add faceCenter (mul (sub newX faceCenter) expansionFactor)
  else newX.

(** Reverse an enlargement around [center] (lines 211-239). With a positive
    influence the center is always present (a missing center gives influence
    0); the [None] case is kept total. *)
Definition enlarge_step (st : morphState) (scaleFactor : float)
    (center : option (float * float)) (influence : float) (p : float * float)
  : float * float :=
  if gt influence zero then
    match center with
    | Some c =>
        let scale := add one (mul (mul (sub scaleFactor one) influence) (intensity st)) in
        let shrinkFactor := div one scale in
        (add (X c) (mul (sub (fst p) (X c)) shrinkFactor),
         add (Y c) (mul (sub (snd p) (Y c)) shrinkFactor))
    | None => p
    end
  else p.

(** The four deformations of inverseTransformPoint applied in order, given
    their influences at the original point. *)
Definition apply_influences (st : morphState) (lm : landmarks)
    (faceInfluence leftEyeInfluence rightEyeInfluence mouthInfluence : float)
    (x y : float) : float * float :=
  let faceCenter := div (add (X (faceLeft lm)) (X (faceRight lm))) two in
  let newX := slim_step st faceCenter faceInfluence x in
  let p := enlarge_step st (eyeScaleFactor st) (leftEyeCenter lm) leftEyeInfluence
             (newX, y) in
  let p := enlarge_step st (eyeScaleFactor st) (rightEyeCenter lm) rightEyeInfluence p in
  enlarge_step st (mouthScaleFactor st) (mouthCenter lm) mouthInfluence p.

(** inverseTransformPoint (lines 193-242), with the engine's [Math] [M]. *)
Definition inverseTransformPoint (M : mathImpl) (st : morphState) (x y : float)
    (lm : landmarks) : float * float :=
  apply_influences st lm
    (calculateFaceSlimInfluence x y lm)
    (calculateEyeInfluence M st x y (leftEyeCenter lm) lm)
    (calculateEyeInfluence M st x y (rightEyeCenter lm) lm)
    (calculateMouthInfluence M st x y (mouthCenter lm) lm)
    x y.

End Morph.

(* ================================================================== *)
(** ** JS objects read and written by key *)

Module JsObject.
Local Open Scope Q_scope.
Local Open Scope string_scope.

(** The values these objects hold: finite numbers, [NaN], [Infinity],
    strings and [undefined]. *)
Inductive jsval :=
  | JNum (q : Q) | JNaN | JInfinity | JStr (s : String.string) | JUndefined.

(** An object: its own keys in insertion order. *)
Definition obj : Type := list (String.string * jsval).

(** [o[k]]: [undefined] for a key the object does not have. *)
Fixpoint get (o : obj) (k : String.string) : jsval :=
  match o with
  | [] => JUndefined
  | (k', v) :: o' => if String.eqb k k' then v else get o' k
  end.

(** [o[k] = v] (also [{ ...o, k: v }]): an existing key keeps its place, a
    new key goes last. *)
Fixpoint set (o : obj) (k : String.string) (v : jsval) : obj :=
  match o with
  | [] => [(k, v)]
  | (k', v') :: o' =>
      if String.eqb k k' then (k', v) :: o' else (k', v') :: set o' k v
  end.

Definition truthy (v : jsval) : bool :=
  match v with
  | JNum q => negb (Qeq_bool q 0)
  | JNaN | JUndefined => false
  | JInfinity => true
  | JStr s => negb (String.eqb s String.EmptyString)
  end.

(** [a || b] *)
Definition js_or (a b : jsval) : jsval := if truthy a then a else b.

(** [Math.trunc] on a rational. *)
Definition Qtrunc (q : Q) : Z :=
  if Qle_bool 0 q then Qfloor q else (- Qfloor (- q))%Z.

(** [a % b]: [a - b * trunc(a / b)] on finite numbers, [a] for a finite [a]
    and [b = Infinity], NaN otherwise (a non-number operand, [b = 0]). *)
Definition js_rem (a b : jsval) : jsval :=
  match a, b with
  | JNum x, JNum y =>
      if Qeq_bool y 0 then JNaN else JNum (x - y * inject_Z (Qtrunc (x / y)))
  | JNum x, JInfinity => JNum x
  | _, _ => JNaN
  end.

(** [v === 0] *)
Definition js_is_zero (v : jsval) : bool :=
  match v with JNum q => Qeq_bool q 0 | _ => false end.

(** [+], [-], [*], [Math.min] and [Math.max] on the finite numbers the
    configuration objects hold; an operand that is not one (only
    [undefined] can reach them here) gives NaN. *)
Definition num2 (f : Q -> Q -> Q) (a b : jsval) : jsval :=
  match a, b with JNum x, JNum y => JNum (f x y) | _, _ => JNaN end.
Definition js_add := num2 Qplus.
Definition js_sub := num2 Qminus.
Definition js_mul := num2 Qmult.
Definition js_min := num2 Qmin.
Definition js_max := num2 Qmax.

(** [String.prototype.toUpperCase] on ASCII text. *)
Definition upper_ascii (c : Ascii.ascii) : Ascii.ascii :=
  let n := Ascii.nat_of_ascii c in
  if (97 <=? n)%nat && (n <=? 122)%nat then Ascii.ascii_of_nat (n - 32) else c.

Fixpoint toUpperCase (s : String.string) : String.string :=
  match s with
  | String.EmptyString => String.EmptyString
  | String.String c s' => String.String (upper_ascii c) (toUpperCase s')
  end.

End JsObject.

(* ================================================================== *)
(** ** PerformanceManager and MemoryManager, continued (part_004) *)

Module PerformanceExtra.
Import PerformanceManager JsObject.
Local Open Scope string_scope.

Definition tier_name (t : tier) : String.string :=
  match t with HIGH => "high" | MEDIUM => "medium" | LOW => "low" end.

(** [PERFORMANCE[level]] as the object the code spreads (constants.js,
    lines 7-38), every field in source order. *)
Definition PERFORMANCE_obj (t : tier) : obj :=
  match t with
  | HIGH =>
      [("maxFaces", JNum 5); ("skipFrames", JNum 1); ("shadowBlur", JNum 10);
       ("particleCount", JNum 8); ("animationSpeed", JNum 1);
       ("cleanupInterval", JNum 60); ("targetFPS", JNum 30);
       ("detectionConfidence", JNum (5 # 10))]
  | MEDIUM =>
      [("maxFaces", JNum 3); ("skipFrames", JNum 2); ("shadowBlur", JNum 5);
       ("particleCount", JNum 6); ("animationSpeed", JNum (8 # 10));
       ("cleanupInterval", JNum 40); ("targetFPS", JNum 24);
       ("detectionConfidence", JNum (6 # 10))]
  | LOW =>
      [("maxFaces", JNum 1); ("skipFrames", JNum 5); ("shadowBlur", JNum 0);
       ("particleCount", JNum 4); ("animationSpeed", JNum (6 # 10));
       ("cleanupInterval", JNum 20); ("targetFPS", JNum 20);
       ("detectionConfidence", JNum (7 # 10))]
  end.

(** getQualitySettings (lines 221-232), returning the object itself. *)
Definition getQualitySettings_obj (s : state) : obj :=
  let settings := PERFORMANCE_obj (performanceLevel s) in
  let p := JNum (inject_Z (memoryPressureLevel s)) in
  if 0 <? memoryPressureLevel s then
    let settings := set settings "skipFrames"
      (js_min (js_add (get settings "skipFrames") p) (JNum 5)) in
    let settings := set settings "particleCount"
      (js_max (js_sub (get settings "particleCount") p) (JNum 1)) in
    set settings "shadowBlur"
      (js_max (js_sub (get settings "shadowBlur") (js_mul p (JNum 2))) (JNum 0))
  else settings.

(** shouldSkipFrame (lines 265-267). Both operands are integers: JS [%] is
    [Z.rem] for a nonzero divisor and NaN ([!== 0] holds) for 0. *)
Definition shouldSkipFrame (s : state) (skipFrameCounter : Z) : bool :=
  let i := dynamicSkipInterval s in
  if i =? 0 then true else negb (Z.rem skipFrameCounter i =? 0).

(** [MEMORY] (constants.js, lines 88-92) *)
Definition PRESSURE_THRESHOLD_LOW : Z := 25.
Definition PRESSURE_THRESHOLD_HIGH : Z := 50.

(** manageTensorMemory(tf) (lines 342-358) for [tf.memory().numTensors];
    the flag says whether it called [tf.disposeVariables()]. *)
Definition manageTensorMemory (s : state) (numTensors : Z) : state * bool :=
  let level :=
    if numTensors >? PRESSURE_THRESHOLD_HIGH then 2
    else if numTensors >? PRESSURE_THRESHOLD_LOW then 1
    else 0 in
  ({| performanceLevel := performanceLevel s; fps := fps s;
      frameCount := frameCount s; dynamicSkipInterval := dynamicSkipInterval s;
      memoryPressureLevel := level |},
   1 <? level).

(** MemoryManager.getMemoryPressure (lines 45-50) *)
Definition getMemoryPressure (numTensors : Z) : Z :=
  if numTensors >? PRESSURE_THRESHOLD_HIGH then 2
  else if numTensors >? PRESSURE_THRESHOLD_LOW then 1
  else 0.

Definition fps_js (f : fpsValue) : jsval :=
  match f with FpsNum z => JNum (inject_Z z) | FpsInfinity => JInfinity end.

(** getStats (lines 364-372) *)
Definition getStats (s : state) : obj :=
  [("performanceLevel", JStr (tier_name (performanceLevel s)));
   ("fps", fps_js (fps s));
   ("frameCount", JNum (inject_Z (frameCount s)));
   ("skipInterval", JNum (inject_Z (dynamicSkipInterval s)));
   ("memoryPressure", JNum (inject_Z (memoryPressureLevel s)))].

End PerformanceExtra.

(* ================================================================== *)
(** ** What FilterRenderer.render hands to draw, and
       MorphFilter.adjustForPerformance *)

Module DrawSettings.
Import JsObject.
Local Open Scope string_scope.

(** FilterRenderer.js, lines 86-89:
    [{ ...qualitySettings, performanceLevel: qualitySettings.performanceLevel || 'high' }] *)
Definition drawSettings (qualitySettings : obj) : obj :=
  set qualitySettings "performanceLevel"
    (js_or (get qualitySettings "performanceLevel") (JStr "high")).

Definition MORPH_MEDIUM : Morph.morphState :=
  {| Morph.intensity := F64.dec 9 1; Morph.eyeScaleFactor := F64.dec 20 1;
     Morph.mouthScaleFactor := F64.dec 18 1; Morph.faceSlimFactor := F64.dec 88 2;
     Morph.jawReductionFactor := F64.dec 92 2 |}.

Definition MORPH_LOW : Morph.morphState :=
  {| Morph.intensity := F64.dec 8 1; Morph.eyeScaleFactor := F64.dec 16 1;
     Morph.mouthScaleFactor := F64.dec 14 1; Morph.faceSlimFactor := F64.dec 9 1;
     Morph.jawReductionFactor := F64.dec 95 2 |}.

(** [MORPH[key]] for the tier keys; [undefined] for any other key. *)
Definition MORPH_cfg (key : String.string) : option Morph.morphState :=
  if String.eqb key "HIGH" then Some Morph.MORPH_HIGH
  else if String.eqb key "MEDIUM" then Some MORPH_MEDIUM
  else if String.eqb key "LOW" then Some MORPH_LOW
  else None.

(** adjustForPerformance (MorphFilter.js, lines 127-136); [toUpperCase] of a
    value that is not a string throws. *)
Definition adjustForPerformance (m : Morph.morphState) (performanceLevel : jsval)
  : Geometry.jsResult Morph.morphState :=
  match performanceLevel with
  | JStr s =>
      match MORPH_cfg (toUpperCase s) with
      | Some config =>
          Geometry.Ok {| Morph.intensity := Morph.intensity config;
                         Morph.eyeScaleFactor := Morph.eyeScaleFactor config;
                         Morph.mouthScaleFactor := Morph.mouthScaleFactor config;
                         Morph.faceSlimFactor := Morph.faceSlimFactor config;
                         Morph.jawReductionFactor := Morph.jawReductionFactor config |}
      | None => Geometry.Ok m
      end
  | _ => Geometry.Throw
  end.

End DrawSettings.

(* ================================================================== *)
(** ** calculateFaceMovement (part_004, lines 274-302) *)

Module Movement.
Import Geometry JsNum.
Local Open Scope R_scope.

(** The [for] loop over [i < Math.min(newFaces.length, lastFaces.length)],
    i.e. over the pairs [(newFaces[i], lastFaces[i])]. The faces' meshes are
    arrays, so [newFace.scaledMesh && oldFace.scaledMesh] holds; reading a
    component of a missing nose ([scaledMesh[1]] undefined) throws. *)
Fixpoint movement_loop (pairs : list (face * face)) (totalMovement : R)
    (pairCount : nat) : jsResult (R * nat) :=
  match pairs with
  | [] => Ok (totalMovement, pairCount)
  | (newFace, oldFace) :: rest =>
      let newNose := nth_error (scaledMesh newFace) 1 in
      let oldNose := nth_error (scaledMesh oldFace) 1 in
      nx <- coord0 newNose ;; ox <- coord0 oldNose ;;
      ny <- coord1 newNose ;; oy <- coord1 oldNose ;;
      let movement := sqrt ((Q2R nx - Q2R ox) ^ 2 + (Q2R ny - Q2R oy) ^ 2) in
      movement_loop rest (totalMovement + movement) (S pairCount)
  end.

(** calculateFaceMovement(newFaces) with [this.lastFaces]: the result (or a
    throw) and [this.lastFaces] afterwards (a throw leaves it as it was). *)
Definition calculateFaceMovement (lastFaces newFaces : list face)
  : jsResult num * list face :=
  match lastFaces, newFaces with
  | [], _ | _, [] => (Ok PInf, newFaces)
  | _, _ =>
      match movement_loop (combine newFaces lastFaces) 0 0 with
      | Throw => (Throw, lastFaces)
      | Ok (totalMovement, pairCount) =>
          (Ok (if (0 <? pairCount)%nat then Fin (totalMovement / INR pairCount)
               else PInf), newFaces)
      end
  end.

End Movement.

(* ================================================================== *)
(** ** FaceFilterApp.animate (part_000, lines 418-476) *)

Module App.
Import Geometry PerformanceManager PerformanceExtra JsObject Interpolation.
Local Open Scope string_scope.

(** The state one frame reads and writes: the PerformanceManager's fields
    ([lastFaces], [cachedFaces] besides those of [state]), the app's
    [skipFrameCounter] and the FilterRenderer's [animationTime]. *)
Record app := {
  pm : state;
  lastFaces : list face;
  cachedFaces : option (list face);
  skipFrameCounter : Z;
  animationTime : Q
}.

(** The constructors (FaceFilterApp, PerformanceManager, FilterRenderer). *)
Definition app_init : app :=
  {| pm := init; lastFaces := []; cachedFaces := None; skipFrameCounter := 0;
     animationTime := 0 |}.

(** What a frame gets from outside: [performance.now() - lastFrameTime], the
    faces [detectFaces] would resolve to, [tf.memory().numTensors]. *)
Record frameInput := {
  deltaTime : Q;
  detectedFaces : list face;
  numTensors : Z
}.

Definition with_pm (a : app) (p : state) : app :=
  {| pm := p; lastFaces := lastFaces a; cachedFaces := cachedFaces a;
     skipFrameCounter := skipFrameCounter a; animationTime := animationTime a |}.

Definition with_faces (a : app) (last : list face) (cached : option (list face))
  : app :=
  {| pm := pm a; lastFaces := last; cachedFaces := cached;
     skipFrameCounter := skipFrameCounter a; animationTime := animationTime a |}.

Section Animate.
(** [this.filterRenderer.render(ctx, faces, qualitySettings)]: whether it
    returns or throws (its canvas effects are not part of this state). *)
Variable renderCall : list face -> obj -> jsResult unit.

(** Lines 465-468: [stats.frameCount % stats.cleanupInterval === 0]. *)
Definition memory_check (a : app) (numTensors : Z) : app :=
  let stats := getStats (pm a) in
  if js_is_zero (js_rem (get stats "frameCount") (get stats "cleanupInterval"))
  then with_pm a (fst (manageTensorMemory (pm a) numTensors))
  else a.

(** One call of animate() while running: the state afterwards and, when
    render was called, the faces and the quality settings it was given.
    A throw anywhere in the [try] ends the frame there; the effects before
    it stay. *)
Definition animate (a : app) (inp : frameInput)
  : app * option (list face * obj) :=
  let pm1 := updateFPS (pm a) (deltaTime inp) in
  let time1 := (animationTime a + deltaTime inp / 1000)%Q in
  let shouldSkip := shouldSkipFrame pm1 (skipFrameCounter a) in
  let a1 := {| pm := pm1; lastFaces := lastFaces a; cachedFaces := cachedFaces a;
               skipFrameCounter := skipFrameCounter a + 1;
               animationTime := time1 |} in
  let step :=
    if negb shouldSkip then
      let faces := detectedFaces inp in
      match Movement.calculateFaceMovement (lastFaces a1) faces with
      | (Throw, _) => Throw
      | (Ok _movement, last') => Ok (with_faces a1 last' (Some faces), faces)
      end
    else
      let arg := match cachedFaces a1 with Some l => l | None => [] end in
      let '(cache', faces) := interpolateFaces (cachedFaces a1) arg INTERPOLATION_FACTOR in
      Ok (with_faces a1 (lastFaces a1) cache', faces) in
  match step with
  | Throw => (a1, None)
  | Ok (a2, faces) =>
      match faces with
      | [] => (memory_check a2 (numTensors inp), None)
      | _ :: _ =>
          let qualitySettings := getQualitySettings_obj (pm a2) in
          match renderCall faces qualitySettings with
          | Throw => (a2, Some (faces, qualitySettings))
          | Ok _ => (memory_check a2 (numTensors inp), Some (faces, qualitySettings))
          end
      end
  end.

(** A run of frames, with what each frame handed to render. *)
Fixpoint run_app (a : app) (inputs : list frameInput)
  : app * list (option (list face * obj)) :=
  match inputs with
  | [] => (a, [])
  | inp :: rest =>
      let '(a', o) := animate a inp in
      let '(a'', os) := run_app a' rest in
      (a'', o :: os)
  end.

End Animate.

End App.

(* ================================================================== *)
(** ** MorphFilter.getMorphingLandmarks (MorphFilter.js, lines 161-188) *)

Module MorphLandmarks.
Local Open Scope Q_scope.

(** [LANDMARKS] (constants.js, lines 150-181), the indices read here. *)
Definition LEFT_EYE_CENTER : nat := 468.
Definition RIGHT_EYE_CENTER : nat := 473.
Definition LEFT_EYE_INNER : nat := 133.
Definition LEFT_EYE_OUTER : nat := 33.
Definition FACE_LEFT : nat := 172.
Definition FACE_RIGHT : nat := 397.
Definition CHIN_TIP : nat := 175.
Definition MOUTH_LEFT_CORNER : nat := 61.
Definition MOUTH_RIGHT_CORNER : nat := 291.
Definition MOUTH_TOP_CENTER : nat := 13.
Definition MOUTH_BOTTOM_CENTER : nat := 17.

(** [a || b] on mesh entries: a point (an array) is truthy, [undefined]
    is not. *)
Definition or_point (a b : option point3) : option point3 :=
  match a with Some _ => a | None => b end.

(** The object getMorphingLandmarks returns; [undefined] is [None],
    [mouthCenter] is [null] ([None]) or [[x, y]]. *)
Record landmarks := {
  leftEyeCenter : option point3;
  rightEyeCenter : option point3;
  leftEyeInner : option point3;
  leftEyeOuter : option point3;
  faceLeft : option point3;
  faceRight : option point3;
  chinTip : option point3;
  foreheadCenter : option point3;
  mouthLeftCorner : option point3;
  mouthRightCorner : option point3;
  mouthTopCenter : option point3;
  mouthBottomCenter : option point3;
  mouthCenter : option (Q * Q)
}.

Definition getMorphingLandmarks (f : face) : landmarks :=
  let mesh := scaledMesh f in
  let mouthLeft := nth_error mesh MOUTH_LEFT_CORNER in
  let mouthRight := nth_error mesh MOUTH_RIGHT_CORNER in
  {| leftEyeCenter := or_point (nth_error mesh LEFT_EYE_CENTER)
                               (nth_error mesh Geometry.LEFT_EYE);
     rightEyeCenter := or_point (nth_error mesh RIGHT_EYE_CENTER)
                                (nth_error mesh Geometry.RIGHT_EYE);
     leftEyeInner := nth_error mesh LEFT_EYE_INNER;
     leftEyeOuter := nth_error mesh LEFT_EYE_OUTER;
     faceLeft := nth_error mesh FACE_LEFT;
     faceRight := nth_error mesh FACE_RIGHT;
     chinTip := nth_error mesh CHIN_TIP;
     foreheadCenter := nth_error mesh Geometry.FOREHEAD_CENTER;
     mouthLeftCorner := mouthLeft;
     mouthRightCorner := mouthRight;
     mouthTopCenter := nth_error mesh MOUTH_TOP_CENTER;
     mouthBottomCenter := nth_error mesh MOUTH_BOTTOM_CENTER;
     mouthCenter :=
       match mouthLeft, mouthRight with
       | Some (lx, ly, _), Some (rx, ry, _) => Some ((lx + rx) / 2, (ly + ry) / 2)
       | _, _ => None
       end |}.

End MorphLandmarks.

(* ================================================================== *)
(** ** MathUtils lookup tables (mathUtils.js, lines 8-53) and the moving
       parts of AnimatedFilter (AnimatedFilter.js, lines 173-195) *)

Module MathUtils.
Import JsNum.
Local Open Scope R_scope.

(** [MATH.LOOKUP_SIZE] (constants.js, line 206) *)
Definition LOOKUP_SIZE : nat := 360.

(** [Math.floor] on a finite number: [up x] is the least integer above [x]. *)
Definition js_floor (x : R) : Z := (up x - 1)%Z.

(** [Math.trunc] *)
Definition js_trunc (x : R) : Z :=
  if Rle_dec 0 x then js_floor x else (- js_floor (- x))%Z.

(** [a % b] on finite numbers with [b <> 0]: the sign of [a]. *)
Definition js_fmod (a b : R) : R := a - b * IZR (js_trunc (a / b)).

(** init(): [lookup[i] = f((i * Math.PI * 2) / lookupSize)] for
    [i < lookupSize]. *)
Definition init_table (f : R -> R) : list R :=
  map (fun i => f (INR i * PI * 2 / INR LOOKUP_SIZE)) (seq 0 LOOKUP_SIZE).

Definition sinLookup : list R := init_table sin.
Definition cosLookup : list R := init_table cos.

(** [Math.max(0, Math.min(lookupSize - 1,
      Math.floor(((angle % (Math.PI * 2)) / (Math.PI * 2)) * lookupSize)))] *)
Definition lookup_index (angle : R) : Z :=
  Z.max 0 (Z.min (Z.of_nat LOOKUP_SIZE - 1)
    (js_floor (js_fmod angle (PI * 2) / (PI * 2) * INR LOOKUP_SIZE))).

(** fastSin and fastCos on a finite angle; the entry read, [None] for
    [undefined] (an index the table has no entry for). *)
Definition fastSin (angle : R) : option R :=
  nth_error sinLookup (Z.to_nat (lookup_index angle)).

Definition fastCos (angle : R) : option R :=
  nth_error cosLookup (Z.to_nat (lookup_index angle)).

(** A table entry in arithmetic: [undefined] becomes NaN. *)
Definition js_of (v : option R) : num :=
  match v with Some r => Fin r | None => NaN end.

(** [ORBIT_SPEEDS] (constants.js, lines 229-235) *)
Definition DOT_SPEED_1 : R := 1.
Definition DOT_SPEED_2 : R := -1.5.
Definition DOT_SPEED_3 : R := 0.7.
Definition FISH_SPEED_1 : R := 0.5.
Definition FISH_SPEED_2 : R := -0.3.

(** drawMovingDot, lines 174-177: the centre [(x, y)] of the dot. *)
Definition movingDotPosition (centerX centerY time speed faceWidth : R)
  : num * num :=
  let radius := faceWidth * 0.6 in
  let angle := time * speed in
  (add (Fin centerX) (mul (js_of (fastCos angle)) (Fin radius)),
   add (Fin centerY) (mul (mul (js_of (fastSin angle)) (Fin radius)) (Fin 0.7))).

(** drawSwimmingFish, lines 193-195: [swimX], [swimY] and [fishSize]. *)
Definition swimmingFishPosition (baseX baseY baseSize time speed faceWidth : R)
  : num * num * num :=
  (add (Fin baseX) (mul (mul (js_of (fastSin (time * speed))) (Fin faceWidth)) (Fin 0.8)),
   add (Fin baseY) (mul (js_of (fastCos (time * speed * 0.7))) (Fin 20)),
   mul (Fin baseSize) (add (Fin 0.8) (mul (Fin 0.2) (js_of (fastSin (time * 2)))))).

End MathUtils.

(* ================================================================== *)
(** ** The FilterRenderer's filter registry (FilterRenderer.js, lines 11-113;
       filterDefinitions, part_001, lines 8-105; Filter.js, lines 6-12) *)

Module FilterRegistry.
Local Open Scope string_scope.

(** The fields of a filter definition the registry reads ([parts] only
    reaches draw). *)
Record filterConfig := {
  cfg_type : String.string;
  cfg_name : String.string;
  cfg_description : option String.string
}.

Definition filterDefinitions : list (String.string * filterConfig) :=
  [("bouncing_balls", {| cfg_type := "animated"; cfg_name := "Bouncing Balls";
                         cfg_description := None |});
   ("twinkling_stars", {| cfg_type := "animated"; cfg_name := "Twinkling Stars";
                          cfg_description := None |});
   ("floating_hearts", {| cfg_type := "animated"; cfg_name := "Floating Hearts";
                          cfg_description := None |});
   ("pet_dots", {| cfg_type := "animated"; cfg_name := "Moving Dots (Pet)";
                   cfg_description := None |});
   ("prey_fish", {| cfg_type := "animated"; cfg_name := "Swimming Fish (Pet)";
                    cfg_description := None |});
   ("sparkle_burst", {| cfg_type := "particle"; cfg_name := "Sparkle Burst";
                        cfg_description := None |});
   ("face_morph", {| cfg_type := "morph"; cfg_name := "Extreme Morph";
                     cfg_description :=
                       Some "Massive eyes + huge mouth + slim face cartoon filter" |})].

Inductive filterClass := AnimatedFilter | MorphFilter.

(** A filter object: its class and the fields the Filter constructor sets. *)
Record filter := {
  cls : filterClass;
  f_type : String.string;
  f_name : String.string;
  f_description : String.string
}.

(** [new MorphFilter(config)] or [new AnimatedFilter(config)];
    [config.description || ''] *)
Definition newFilter (config : filterConfig) : filter :=
  {| cls := if String.eqb (cfg_type config) "morph" then MorphFilter else AnimatedFilter;
     f_type := cfg_type config;
     f_name := cfg_name config;
     f_description :=
       match cfg_description config with Some d => d | None => String.EmptyString end |}.

(** A [Map]: entries in insertion order. *)
Definition fmap : Type := list (String.string * filter).

Fixpoint map_get (m : fmap) (k : String.string) : option filter :=
  match m with
  | [] => None
  | (k', v) :: m' => if String.eqb k k' then Some v else map_get m' k
  end.

Definition map_has (m : fmap) (k : String.string) : bool :=
  match map_get m k with Some _ => true | None => false end.

(** [map.set(k, v)]: an existing key keeps its place. *)
Fixpoint map_set (m : fmap) (k : String.string) (v : filter) : fmap :=
  match m with
  | [] => [(k, v)]
  | (k', v') :: m' =>
      if String.eqb k k' then (k', v) :: m' else (k', v') :: map_set m' k v
  end.

(** initFilters (lines 22-32) on [this.filters]. *)
Definition initFilters (m : fmap) : fmap :=
  fold_left (fun m '(name, config) => map_set m name (newFilter config))
    filterDefinitions m.

Record renderer := {
  filters : fmap;
  currentFilterName : String.string;
  animationTime : Q
}.

(** The constructor (lines 12-17). *)
Definition renderer_init : renderer :=
  {| filters := initFilters []; currentFilterName := "none"; animationTime := 0%Q |}.

(** setFilter (lines 38-44): the renderer afterwards and the result. *)
Definition setFilter (r : renderer) (filterName : String.string) : renderer * bool :=
  if String.eqb filterName "none" || map_has (filters r) filterName then
    ({| filters := filters r; currentFilterName := filterName;
        animationTime := animationTime r |}, true)
  else (r, false).

(** An entry of getAvailableFilters; [description] is absent ([None]) from
    the ['none'] entry. *)
Record availableFilter := {
  af_name : String.string;
  af_displayName : String.string;
  af_type : String.string;
  af_description : option String.string
}.

(** getAvailableFilters (lines 100-113) *)
Definition getAvailableFilters (r : renderer) : list availableFilter :=
  {| af_name := "none"; af_displayName := "No Filter"; af_type := "none";
     af_description := None |}
  :: map (fun '(name, f) =>
            {| af_name := name; af_displayName := f_name f; af_type := f_type f;
               af_description := Some (f_description f) |}) (filters r).

(** [this.filters.get(this.currentFilterName)] as render reads it. *)
Definition current_filter (r : renderer) : option filter :=
  map_get (filters r) (currentFilterName r).

End FilterRegistry.

(* ================================================================== *)
(** ** ModelLoader.detectFaces and detectFacesSafari (Filter.js, lines
       239-301) *)

Module ModelLoader.

(** One call of [this.model.estimateFaces(...)]: it throws, or resolves to
    an array of faces or to a falsy value ([None]). *)
Inductive estimateResult := EThrow | EFaces (faces : option (list face)).

(** [faces.filter(face => face.scaledMesh && face.scaledMesh.length >= 468)];
    a mesh array is truthy. *)
Definition validFaces (faces : list face) : list face :=
  filter (fun f => (468 <=? length (scaledMesh f))%nat) faces.

Definition maxAttempts : nat := 3.

(** The [for] loop from [attempt] on, [remaining] attempts left;
    [estimateFaces attempt] is what the call at that attempt gives. *)
Fixpoint safari_attempts (estimateFaces : nat -> estimateResult)
    (attempt remaining : nat) : list face :=
  match remaining with
  | O => []
  | S r =>
      match estimateFaces attempt with
      | EThrow =>
          if (maxAttempts <=? attempt)%nat then []
          else safari_attempts estimateFaces (S attempt) r
      | EFaces faces =>
          let valid :=
            match faces with Some ((_ :: _) as fs) => validFaces fs | _ => [] end in
          match valid with
          | [] => safari_attempts estimateFaces (S attempt) r
          | _ :: _ => valid
          end
      end
  end.

Definition detectFacesSafari (estimateFaces : nat -> estimateResult) : list face :=
  safari_attempts estimateFaces 1 maxAttempts.

(** detectFaces: [None] is the falsy value a non-Safari [estimateFaces] may
    resolve to, returned as is. *)
Definition detectFaces (modelLoaded : bool) (videoWidth : Z) (isSafari : bool)
    (estimateFaces : nat -> estimateResult) : option (list face) :=
  if negb modelLoaded || (videoWidth =? 0)%Z then Some []
  else if isSafari then Some (detectFacesSafari estimateFaces)
  else match estimateFaces 1%nat with
       | EThrow => Some []
       | EFaces faces => faces
       end.

End ModelLoader.

(* ================================================================== *)
(** ** Camera.accessCamera and degradeConstraints (part_005, lines 49-99;
       CAMERA_CONFIG, constants.js, lines 60-86) and
       BrowserDetector.getCameraConstraints (browserDetection.js, 85-95) *)

Module Camera.

(** The [video] member of a constraints object; [None] for an absent
    field. *)
Record videoConstraints := {
  width_ideal : option Z;
  width_max : option Z;
  height_ideal : option Z;
  height_max : option Z;
  frameRate_ideal : option Z
}.

(** The three constraint objects of [CAMERA_CONFIG]; getCameraConstraints
    returns the object itself, not a copy. *)
Inductive constraintsRef := DEFAULT_CONSTRAINTS | SAFARI_CONSTRAINTS | IOS_CONSTRAINTS.

Definition ref_eqb (a b : constraintsRef) : bool :=
  match a, b with
  | DEFAULT_CONSTRAINTS, DEFAULT_CONSTRAINTS | SAFARI_CONSTRAINTS, SAFARI_CONSTRAINTS
  | IOS_CONSTRAINTS, IOS_CONSTRAINTS => true
  | _, _ => false
  end.

Definition store : Type := constraintsRef -> videoConstraints.

Definition CAMERA_CONFIG : store := fun r =>
  match r with
  | DEFAULT_CONSTRAINTS =>
      {| width_ideal := Some 640; width_max := None; height_ideal := Some 480;
         height_max := None; frameRate_ideal := None |}
  | SAFARI_CONSTRAINTS =>
      {| width_ideal := Some 640; width_max := Some 1280; height_ideal := Some 480;
         height_max := Some 720; frameRate_ideal := None |}
  | IOS_CONSTRAINTS =>
      {| width_ideal := Some 320; width_max := Some 640; height_ideal := Some 240;
         height_max := Some 480; frameRate_ideal := None |}
  end.

Definition store_set (s : store) (r : constraintsRef) (v : videoConstraints) : store :=
  fun r' => if ref_eqb r' r then v else s r'.

Definition getCameraConstraints (isIOS isSafari : bool) : constraintsRef :=
  if isIOS then IOS_CONSTRAINTS
  else if isSafari then SAFARI_CONSTRAINTS
  else DEFAULT_CONSTRAINTS.

(** [if (x?.ideal) x.ideal = Math.max(lo, x.ideal - step)]: a missing or
    zero ideal is left alone. *)
Definition degrade_ideal (lo step : Z) (v : option Z) : option Z :=
  match v with
  | Some w => if (w =? 0)%Z then Some w else Some (Z.max lo (w - step))
  | None => None
  end.

(** degradeConstraints (lines 89-99) *)
Definition degradeConstraints (c : videoConstraints) : videoConstraints :=
  {| width_ideal := degrade_ideal 240 80 (width_ideal c);
     width_max := width_max c;
     height_ideal := degrade_ideal 180 60 (height_ideal c);
     height_max := height_max c;
     frameRate_ideal := degrade_ideal 10 5 (frameRate_ideal c) |}.

Definition RETRY_ATTEMPTS : nat := 3.

(** What one getUserMedia call (or its webkit fallback, or the "not
    supported" throw) gives at an attempt, for the constraints passed:
    a throw, or a stream value that may be falsy ([None]). *)
Inductive gumResult (stream : Type) := GThrow | GStream (s : option stream).
Arguments GThrow {stream}.
Arguments GStream {stream} s.

(** The [for] loop of accessCamera (lines 53-80) from [attempt] on:
    the constraints store afterwards and the stream, or a throw. *)
Fixpoint access_attempts {stream : Type} (isSafari : bool)
    (gum : nat -> videoConstraints -> gumResult stream) (s : store)
    (r : constraintsRef) (attempt remaining : nat)
    : store * Geometry.jsResult stream :=
  match remaining with
  | O => (s, Geometry.Throw)
  | S rest =>
      match gum attempt (s r) with
      | GStream (Some st) => (s, Geometry.Ok st)
      | GStream None => access_attempts isSafari gum s r (S attempt) rest
      | GThrow =>
          if isSafari && (attempt <? RETRY_ATTEMPTS)%nat then
            access_attempts isSafari gum
              (store_set s r (degradeConstraints (s r))) r (S attempt) rest
          else if (RETRY_ATTEMPTS <=? attempt)%nat then (s, Geometry.Throw)
          else access_attempts isSafari gum s r (S attempt) rest
      end
  end.

(** accessCamera(constraints), for the object [r] of the store. *)
Definition accessCamera {stream : Type} (isSafari : bool)
    (gum : nat -> videoConstraints -> gumResult stream) (s : store)
    (r : constraintsRef) : store * Geometry.jsResult stream :=
  access_attempts isSafari gum s r 1 RETRY_ATTEMPTS.

End Camera.

(* ================================================================== *)
(** ** BrowserDetector (browserDetection.js, lines 6-48) and
       PerformanceManager.detectPerformance (part_004, lines 128-215) *)

Module BrowserDetector.
Local Open Scope string_scope.

(** Case folding of the [i] flag, on ASCII text. *)
Definition lower_ascii (c : Ascii.ascii) : Ascii.ascii :=
  let n := Ascii.nat_of_ascii c in
  if (65 <=? n)%nat && (n <=? 90)%nat then Ascii.ascii_of_nat (n + 32) else c.

Fixpoint lower (s : String.string) : String.string :=
  match s with
  | String.EmptyString => String.EmptyString
  | String.String c s' => String.String (lower_ascii c) (lower s')
  end.

(** [/pat/.test(s)] for a literal [pat]: an occurrence anywhere. *)
Fixpoint contains (pat s : String.string) : bool :=
  String.prefix pat s ||
  match s with
  | String.EmptyString => false
  | String.String _ s' => contains pat s'
  end.

Definition contains_any (pats : list String.string) (s : String.string) : bool :=
  existsb (fun p => contains p s) pats.

(** [/Android|webOS|iPhone|iPad|iPod|BlackBerry|IEMobile|Opera Mini/i] *)
Definition isMobile (userAgent : String.string) : bool :=
  contains_any ["android"; "webos"; "iphone"; "ipad"; "ipod"; "blackberry";
                "iemobile"; "opera mini"] (lower userAgent).

(** [/iPad|iPhone|iPod/] *)
Definition isIOS (userAgent : String.string) : bool :=
  contains_any ["iPad"; "iPhone"; "iPod"] userAgent.

(** A line terminator, which [.] does not match. *)
Definition line_terminator (c : Ascii.ascii) : bool :=
  let n := Ascii.nat_of_ascii c in (n =? 10)%nat || (n =? 13)%nat.

(** [/^((?!chrome|android).)*safari/] on the folded text: ["safari"] starts
    at some position, and at every earlier position neither ["chrome"] nor
    ["android"] starts and the character is not a line terminator. *)
Fixpoint safari_re (s : String.string) : bool :=
  String.prefix "safari" s ||
  match s with
  | String.EmptyString => false
  | String.String c s' =>
      negb (String.prefix "chrome" s || String.prefix "android" s)
      && negb (line_terminator c) && safari_re s'
  end.

(** [/^((?!chrome|android).)*safari/i.test(ua) || /iPhone|iPad|iPod/.test(ua)] *)
Definition isSafari (userAgent : String.string) : bool :=
  safari_re (lower userAgent) || contains_any ["iPhone"; "iPad"; "iPod"] userAgent.

End BrowserDetector.

Module PerformanceDetection.
Import BrowserDetector.
Local Open Scope string_scope.

(** [PERFORMANCE_DETECTION] (constants.js, lines 193-202) *)
Definition HIGH_THRESHOLD_MOBILE : Q := 15.
Definition HIGH_THRESHOLD_DESKTOP : Q := 10.
Definition MEDIUM_THRESHOLD_MOBILE : Q := 40.
Definition MEDIUM_THRESHOLD_DESKTOP : Q := 30.
Definition CACHE_DURATION_MS : Z := 24 * 60 * 60 * 1000.

(** The object stored under [CACHE_KEY] by this function. *)
Record cacheEntry := {
  level : String.string;
  timestamp : Z;
  userAgent : String.string
}.

(** [localStorage.getItem(cacheKey)]: nothing (or [''], both falsy), text
    [JSON.parse] rejects, or an entry this function wrote. *)
Inductive cached := NoCache | InvalidCache | CacheEntry (e : cacheEntry).

(** [a < b] on finite numbers. *)
Definition Qlt_bool (a b : Q) : bool := negb (Qle_bool b a).

(** [/OS [5-9]_|OS 10_|OS 11_/] *)
Definition isOlderiOS (ua : String.string) : bool :=
  contains_any ["OS 5_"; "OS 6_"; "OS 7_"; "OS 8_"; "OS 9_"; "OS 10_"; "OS 11_"] ua.

(** Lines 161-198: the level for the measured [testDuration]. *)
Definition level_for (ua : String.string) (testDuration : Q) : String.string :=
  let mobile := isMobile ua in
  let highThreshold := if mobile then HIGH_THRESHOLD_MOBILE else HIGH_THRESHOLD_DESKTOP in
  let mediumThreshold := if mobile then MEDIUM_THRESHOLD_MOBILE else MEDIUM_THRESHOLD_DESKTOP in
  let lvl :=
    if Qlt_bool testDuration highThreshold then "high"
    else if Qlt_bool testDuration mediumThreshold then "medium"
    else "low" in
  let lvl :=
    if isSafari ua then
      let lvl := if String.eqb lvl "high" then "medium" else lvl in
      if isIOS ua then
        if isOlderiOS ua || String.eqb lvl "medium" then "low" else lvl
      else lvl
    else lvl in
  if mobile && negb (isSafari ua) then
    if String.eqb lvl "high" then "medium" else lvl
  else lvl.

(** detectPerformance at time [now] with [navigator.userAgent = ua]: the
    level returned and the entry written to [localStorage] ([None] when
    the cache answered, or when [setItem] threw: [canWrite = false]). *)
Definition detectPerformance (ua : String.string) (now : Z) (c : cached)
    (testDuration : Q) (canWrite : bool) : String.string * option cacheEntry :=
  let fresh :=
    let lvl := level_for ua testDuration in
    (lvl, if canWrite then Some {| level := lvl; timestamp := now; userAgent := ua |}
          else None) in
  match c with
  | CacheEntry e =>
      if (now - timestamp e <? CACHE_DURATION_MS)%Z && String.eqb (userAgent e) ua
      then (level e, None)
      else fresh
  | _ => fresh
  end.

End PerformanceDetection.

(* ================================================================== *)
(** * Theorems *)

Module PerformanceFacts.
Import PerformanceManager.

Definition tier_down (t : tier) : tier :=
  match t with HIGH => MEDIUM | MEDIUM => LOW | LOW => LOW end.

Definition tier_rank (t : tier) : Z :=
  match t with HIGH => 2 | MEDIUM => 1 | LOW => 0 end.

Definition with_level (s : state) (t : tier) (p : Z) : state :=
  {| performanceLevel := t; fps := fps s; frameCount := frameCount s;
     dynamicSkipInterval := dynamicSkipInterval s; memoryPressureLevel := p |}.

Ltac unfold_step :=
  unfold updateFPS;
  repeat match goal with
  | |- context [if ?b then _ else _] => destruct b eqn:?
  end; simpl.

Lemma updateFPS_level (s : state) (dt : Q) :
  performanceLevel (updateFPS s dt) = performanceLevel s \/
  (performanceLevel (updateFPS s dt) = tier_down (performanceLevel s) /\
   (frameCount s + 1) mod 30 = 0 /\
   fps_lt (fps_of dt) (targetFPS (PERFORMANCE (performanceLevel s)) - 5) = true).
Proof.
  unfold_step; auto.
  right; split; [destruct (performanceLevel s); reflexivity|].
  match goal with H : (_ mod 30 =? 0) = true |- _ => apply Z.eqb_eq in H end.
  auto.
Qed.

Lemma updateFPS_rank (s : state) (dt : Q) :
  tier_rank (performanceLevel (updateFPS s dt)) <= tier_rank (performanceLevel s).
Proof.
  destruct (updateFPS_level s dt) as [-> | [-> _]]; [lia|].
  destruct (performanceLevel s); simpl; lia.
Qed.

Lemma run_rank (ds : list Q) : forall s,
  tier_rank (performanceLevel (run s ds)) <= tier_rank (performanceLevel s).
Proof.
  induction ds as [|d ds IH]; intro s; simpl; [lia|].
  specialize (IH (updateFPS s d)). pose proof (updateFPS_rank s d). lia.
Qed.

Lemma updateFPS_skip (s : state) (dt : Q) :
  dynamicSkipInterval (updateFPS s dt) = dynamicSkipInterval s \/
  dynamicSkipInterval (updateFPS s dt) = Z.min (dynamicSkipInterval s + 1) 5 \/
  (1 < dynamicSkipInterval s /\
   dynamicSkipInterval (updateFPS s dt) = Z.max (dynamicSkipInterval s - 1) 1).
Proof.
  unfold_step; auto.
  right; right. split; [|reflexivity].
  match goal with H : (_ && _)%bool = true |- _ =>
    apply andb_true_iff in H as [_ H]; apply Z.ltb_lt in H; exact H end.
Qed.

Lemma run_skip_bounds (ds : list Q) : forall s,
  1 <= dynamicSkipInterval s <= 5 ->
  1 <= dynamicSkipInterval (run s ds) <= 5.
Proof.
  induction ds as [|d ds IH]; intros s Hs; simpl; [exact Hs|].
  apply IH. destruct (updateFPS_skip s d) as [-> | [-> | [_ ->]]]; lia.
Qed.

(** C4: the tier moves only by single downward steps, on a sampling instant
    with a low FPS reading, LOW being the floor; over any run of updateFPS
    calls it never rises, and a controller at LOW stays at LOW. *)
Theorem updateFPS_tier_monotone (s : state) (dt : Q) (ds : list Q) :
  (performanceLevel (updateFPS s dt) = performanceLevel s \/
   (performanceLevel (updateFPS s dt) = tier_down (performanceLevel s) /\
    (frameCount s + 1) mod 30 = 0 /\
    fps_lt (fps_of dt) (targetFPS (PERFORMANCE (performanceLevel s)) - 5) = true)) /\
  tier_rank (performanceLevel (run s ds)) <= tier_rank (performanceLevel s) /\
  (performanceLevel s = LOW -> performanceLevel (run s ds) = LOW).
Proof.
  split; [apply updateFPS_level|]. split; [apply run_rank|].
  intro HL. pose proof (run_rank ds s) as H. rewrite HL in H.
  destruct (performanceLevel (run s ds)); simpl in H; [lia|lia|reflexivity].
Qed.

Lemma updateFPS_tier_monotone_witness :
  performanceLevel (run (with_level init LOW 0) [1000 # 1; 1 # 1]) = LOW.
Proof.
  exact (proj2 (proj2 (updateFPS_tier_monotone (with_level init LOW 0) 1
    [1000 # 1; 1 # 1])) eq_refl).
Defined.

Lemma fps_signals_exclusive (f : fpsValue) (t : Z) :
  fps_gt f (t + 5) = true -> fps_lt f (t - 5) = false.
Proof.
  destruct f as [n|]; simpl; [|reflexivity].
  intro H. apply Z.ltb_lt in H. apply Z.ltb_ge. lia.
Qed.

(** C5: from the initial controller state, every run of updateFPS calls keeps
    the dynamic skip interval in [1,5]. On the next call, a degrade signal
    (a sampling frame whose FPS is below the tier's target minus 5) raises it
    by one with ceiling 5; a recover signal (a sampling frame whose FPS is
    above the target plus 5, while the interval exceeds 1) lowers it by one;
    any other call leaves it unchanged. *)
Theorem skip_interval_bounded (ds : list Q) (dt : Q) :
  let s := run init ds in
  let s' := updateFPS s dt in
  let d := dynamicSkipInterval s in
  let target := targetFPS (PERFORMANCE (performanceLevel s)) in
  let sampling := ((frameCount s + 1) mod 30 =? 0) in
  (1 <= d <= 5 /\ 1 <= dynamicSkipInterval s' <= 5) /\
  ((sampling && fps_lt (fps_of dt) (target - 5))%bool = true ->
   dynamicSkipInterval s' = Z.min (d + 1) 5) /\
  ((sampling && fps_gt (fps_of dt) (target + 5) && (1 <? d))%bool = true ->
   dynamicSkipInterval s' = d - 1) /\
  ((sampling && fps_lt (fps_of dt) (target - 5))%bool = false ->
   (sampling && fps_gt (fps_of dt) (target + 5) && (1 <? d))%bool = false ->
   dynamicSkipInterval s' = d).
Proof.
  intros s s' d target sampling.
  assert (Hd : 1 <= d <= 5) by (apply run_skip_bounds; simpl; lia).
  split; [split; [exact Hd|]|].
  { subst s'. destruct (updateFPS_skip s dt) as [-> | [-> | [_ ->]]];
      fold d; lia. }
  subst s' sampling target d. unfold updateFPS.
  destruct ((frameCount s + 1) mod 30 =? 0); simpl;
    [|repeat split; intros; discriminate].
  destruct (fps_lt (fps_of dt) (targetFPS (PERFORMANCE (performanceLevel s)) - 5))
    eqn:Hlt; simpl.
  - split; [reflexivity|]. split.
    + intro H. apply andb_true_iff in H as [H _].
      rewrite (fps_signals_exclusive _ _ H) in Hlt. discriminate.
    + intro H. discriminate.
  - split; [intro H; discriminate|].
    destruct (fps_gt (fps_of dt) (targetFPS (PERFORMANCE (performanceLevel s)) + 5));
      simpl; [|split; intros; [discriminate|reflexivity]].
    destruct (1 <? dynamicSkipInterval s) eqn:H1; simpl.
    + apply Z.ltb_lt in H1. split; [intros _; lia | intros _ H; discriminate].
    + split; intros; [discriminate|reflexivity].
Qed.

(** C9, as stated, fails: on tier HIGH at memory-pressure level 1 the shadow
    blur drops from 10 to 8, not by the pressure level (to 9). *)
Lemma quality_blur_not_by_level :
  shadowBlur (getQualitySettings (with_level init HIGH 1)) = 8 /\
  shadowBlur (getQualitySettings (with_level init HIGH 1)) <> 10 - 1.
Proof. split; [reflexivity | discriminate]. Qed.

(** C9 (amended): at every memory-pressure level p in {0,1,2}, the quality
    settings are the tier's bundle with skip-frames raised by p (at most 5),
    particle-count lowered by p (at least 1) and shadow-blur lowered by 2p
    (at least 0); on tier MEDIUM at level 2 this gives 4, 4 and 1. *)
Theorem quality_settings_pressure (s : state) (p : Z) :
  0 <= p <= 2 ->
  let q := getQualitySettings (with_level s (performanceLevel s) p) in
  let b := PERFORMANCE (performanceLevel s) in
  skipFrames q = Z.min (skipFrames b + p) 5 /\
  particleCount q = Z.max (particleCount b - p) 1 /\
  shadowBlur q = Z.max (shadowBlur b - 2 * p) 0 /\
  maxFaces q = maxFaces b /\ targetFPS q = targetFPS b /\
  (performanceLevel s = MEDIUM -> p = 2 ->
   skipFrames q = 4 /\ particleCount q = 4 /\ shadowBlur q = 1).
Proof.
  intros Hp q b. subst q b. unfold getQualitySettings; simpl.
  destruct (Z.ltb_spec 0 p) as [Hlt | Hge].
  - simpl. split; [reflexivity|]. split; [reflexivity|].
    split; [rewrite (Z.mul_comm p 2); reflexivity|]. split; [reflexivity|]. split; [reflexivity|].
    intros HM ->. rewrite HM. simpl. auto.
  - assert (p = 0) as -> by lia. simpl.
    destruct (performanceLevel s); simpl; repeat split; intros; discriminate.
Qed.

Lemma quality_settings_pressure_witness :
  0 <= 2 <= 2 /\
  shadowBlur (getQualitySettings (with_level (with_level init MEDIUM 0) MEDIUM 2)) = 1.
Proof.
  split; [lia|].
  destruct (quality_settings_pressure (with_level init MEDIUM 0) 2 ltac:(lia))
    as (_ & _ & _ & _ & _ & H).
  exact (proj2 (proj2 (H eq_refl eq_refl))).
Defined.

End PerformanceFacts.

Module InterpolationFacts.
Import Interpolation.
Local Open Scope Q_scope.

Lemma nth_error_mapi_from {A B : Type} (f : nat -> A -> B) (l : list A) :
  forall i k, nth_error (mapi_from f k l) i =
              option_map (f (k + i)%nat) (nth_error l i).
Proof.
  induction l as [|a l IH]; intros i k; destruct i; simpl; auto.
  - rewrite Nat.add_0_r. reflexivity.
  - rewrite IH. f_equal. f_equal. lia.
Qed.

Lemma nth_error_mapi {A B : Type} (f : nat -> A -> B) (l : list A) i :
  nth_error (mapi f l) i = option_map (f i) (nth_error l i).
Proof. apply nth_error_mapi_from. Qed.

Lemma length_mapi_from {A B : Type} (f : nat -> A -> B) (l : list A) :
  forall k, length (mapi_from f k l) = length l.
Proof. induction l; intro k; simpl; auto. Qed.

Definition snapA : list face :=
  [ {| scaledMesh := [(0, 0, 0)]; faceRest := [] |};
    {| scaledMesh := [(5, 5, 5)]; faceRest := [] |} ].
Definition snapB : list face :=
  [ {| scaledMesh := [(10, 20, 30)]; faceRest := [] |} ].

(** C6, as stated, fails: a face present only in the cached snapshot does not
    pass through; the result has only the new snapshot's faces. *)
Lemma interpolate_drops_cached_only_face :
  nth_error snapA 1 <> None /\
  nth_error (snd (interpolateFaces (Some snapA) snapB INTERPOLATION_FACTOR)) 1
    = None.
Proof. split; [discriminate | reflexivity]. Qed.

(** C6 (amended): with a cached snapshot A and a non-empty new snapshot B,
    interpolateFaces caches B and returns exactly B's faces, in order; a face
    index and landmark index present in both gives A + (B - A) * progress
    componentwise for x, y and depth, and a face or landmark of B absent from
    A passes through unchanged (faces and landmarks present only in A are
    not in the result). *)
Theorem interpolate_blend_law (A B : list face) (progress : Q) :
  B <> [] ->
  let '(cache', out) := interpolateFaces (Some A) B progress in
  cache' = Some B /\ length out = length B /\
  forall i fb, nth_error B i = Some fb ->
    exists fo, nth_error out i = Some fo /\ faceRest fo = faceRest fb /\
    length (scaledMesh fo) = length (scaledMesh fb) /\
    match nth_error A i with
    | None => fo = fb
    | Some fa =>
        forall j b, nth_error (scaledMesh fb) j = Some b ->
        nth_error (scaledMesh fo) j =
          Some match nth_error (scaledMesh fa) j with
               | None => b
               | Some a =>
                   let '(ax, ay, az) := a in let '(bx, by_, bz) := b in
                   (ax + (bx - ax) * progress, ay + (by_ - ay) * progress,
                    az + (bz - az) * progress)
               end
    end.
Proof.
  intro HB. destruct B as [|f0 B']; [congruence|]. cbv beta iota zeta delta [interpolateFaces].
  split; [reflexivity|]. split; [apply length_mapi_from|].
  intros i fb Hi.
  pose proof (nth_error_mapi (interpolate_face A progress) (f0 :: B') i) as Hm.
  rewrite Hm, Hi. cbn [option_map].
  eexists; split; [reflexivity|].
  unfold interpolate_face. destruct (nth_error A i) as [fa|] eqn:HA.
  - cbn [scaledMesh faceRest]. split; [reflexivity|]. split; [apply length_mapi_from|].
    intros j b Hj. pose proof (nth_error_mapi
      (fun pointIndex point =>
         match nth_error (scaledMesh fa) pointIndex with
         | Some cachedPoint => blend progress cachedPoint point
         | None => point
         end) (scaledMesh fb) j) as Hp.
    rewrite Hp, Hj. cbn [option_map].
    destruct (nth_error (scaledMesh fa) j) as [[[ax ay] az]|]; [|reflexivity].
    destruct b as [[bx by_] bz]. reflexivity.
  - auto.
Qed.

Lemma interpolate_blend_law_witness :
  snapB <> [] /\
  snd (interpolateFaces (Some snapA) snapB INTERPOLATION_FACTOR)
    = [ {| scaledMesh := [(0 + (10 - 0) * (3 # 10), 0 + (20 - 0) * (3 # 10),
                           0 + (30 - 0) * (3 # 10))]; faceRest := [] |} ].
Proof.
  split; [discriminate|].
  pose proof (interpolate_blend_law snapA snapB INTERPOLATION_FACTOR
                ltac:(discriminate)) as H.
  simpl in H. destruct H as [_ [_ _]]. reflexivity.
Defined.

End InterpolationFacts.

Module GeometryFacts.
Import Geometry.
Local Open Scope Q_scope.

(** C7 is refuted by a transparent pixel: sampling the 1x1 buffer
    [10,20,30,0] at its own integer coordinate (0,0) returns alpha 255, since
    [imageData[index + 3] || 255] takes the stored 0 for a missing entry. *)
Theorem bilinear_transparent_pixel_alpha :
  bilinearSample [10; 20; 30; 0]%Z 0 0 1 1 = [10; 20; 30; 255]%Z.
Proof. vm_compute. reflexivity. Qed.

End GeometryFacts.

Module RegionFacts.
Import Region.

(** C2, as stated, fails: a face whose eye center lies far right of a 640x480
    canvas gets a region of negative width, its left edge past the canvas. *)
Lemma region_negative_width :
  let r := calculateProcessingRegion ((10000 # 1)%Q, (200 # 1)%Q)
             (10 # 1)%Q (10 # 1)%Q 640 480 HIGH in
  minX r = 9980 /\ width r = -9340 /\ width r < 0 /\ draw_region r = None.
Proof. vm_compute. repeat split; discriminate. Qed.

(** C2 (amended): the region starts at or after (0,0) and ends at or before
    (canvasWidth, canvasHeight); its width or height is negative when the
    face's box lies wholly off one side of the canvas. draw produces no
    output exactly when width <= 0 or height <= 0, and any region it does
    process lies inside the canvas with positive width and height. *)
Theorem region_clipped (eyeCenter : Q * Q) (faceWidth faceHeight : Q)
    (canvasWidth canvasHeight : Z) (performanceLevel : tier) :
  let r := calculateProcessingRegion eyeCenter faceWidth faceHeight
             canvasWidth canvasHeight performanceLevel in
  0 <= minX r /\ minX r + width r <= canvasWidth /\
  0 <= minY r /\ minY r + height r <= canvasHeight /\
  (draw_region r = None <-> width r <= 0 \/ height r <= 0) /\
  (forall r', draw_region r = Some r' ->
     r' = r /\ 0 < width r /\ 0 < height r /\ minX r < canvasWidth /\
     minY r < canvasHeight).
Proof.
  intro r. unfold calculateProcessingRegion in r.
  assert (Hx : 0 <= minX r /\ minX r + width r <= canvasWidth /\
               0 <= minY r /\ minY r + height r <= canvasHeight)
    by (subst r; simpl; lia).
  destruct Hx as (H1 & H2 & H3 & H4).
  split; [exact H1|]. split; [exact H2|]. split; [exact H3|].
  split; [exact H4|]. clearbody r. unfold draw_region.
  destruct (Z.leb_spec (width r) 0) as [Hw | Hw];
    destruct (Z.leb_spec (height r) 0) as [Hh | Hh]; simpl.
  - split; [split; auto | intros r' E; discriminate].
  - split; [split; auto | intros r' E; discriminate].
  - split; [split; auto | intros r' E; discriminate].
  - split.
    + split; [discriminate | intros [? | ?]; exfalso; lia].
    + intros r' E. injection E as <-. split; [reflexivity|]. repeat split; lia.
Qed.

End RegionFacts.

Module RendererFacts.
Import Geometry Renderer.
Local Open Scope Q_scope.

Section Facts.
Variable canvas filter : Type.
Variable draw : filter -> face -> canvas -> canvas * bool.

Lemma render_faces_app (filt : filter) (cw ch : Z) (l1 l2 : list face) :
  forall ctx,
  render_faces canvas filter draw filt cw ch (l1 ++ l2) ctx =
  bind (render_faces canvas filter draw filt cw ch l1 ctx)
       (render_faces canvas filter draw filt cw ch l2).
Proof.
  induction l1 as [|f l1 IH]; intro ctx; simpl; [reflexivity|].
  destruct (render_face canvas filter draw filt cw ch f ctx); simpl;
    [apply IH | reflexivity].
Qed.

Lemma render_as_faces (current : option filter) (cw ch : Z)
    (faces : list face) (ctx : canvas) :
  render canvas filter draw current cw ch faces ctx =
  match current with
  | None => Ok ctx
  | Some filt => render_faces canvas filter draw filt cw ch faces ctx
  end.
Proof. destruct current, faces; reflexivity. Qed.

End Facts.

(** A canvas that records the faces drawn on it, most recent first. *)
Definition log_draw (_ : unit) (f : face) (ctx : list face)
  : list face * bool := (f :: ctx, false).

Definition mesh_at (p : point3) : list point3 := repeat p 400.
Definition offscreen_face : face :=
  {| scaledMesh := mesh_at ((1000 # 1), (1000 # 1), 0); faceRest := [] |}.
Definition onscreen_face : face :=
  {| scaledMesh := mesh_at ((100 # 1), (100 # 1), 0); faceRest := [] |}.
Definition empty_mesh_face : face := {| scaledMesh := []; faceRest := [] |}.

(** C10: a face for which shouldCullAnimation holds is never handed to the
    filter's draw: for every filter and every draw function (morph or
    decorative alike), render on a face list containing it gives the result
    of render on the list without it. *)
Theorem render_skips_culled_face (canvas filter : Type)
    (draw : filter -> face -> canvas -> canvas * bool)
    (current : option filter) (cw ch : Z) (pre post : list face)
    (f : face) (ctx : canvas) :
  shouldCullAnimation f cw ch = Ok true ->
  render canvas filter draw current cw ch (pre ++ f :: post) ctx =
  render canvas filter draw current cw ch (pre ++ post) ctx.
Proof.
  intro Hcull. rewrite !render_as_faces. destruct current as [filt|];
    [|reflexivity].
  rewrite !render_faces_app. destruct (render_faces _ _ _ _ _ _ pre ctx);
    simpl; [|reflexivity].
  unfold render_face. rewrite Hcull. reflexivity.
Qed.

Lemma render_skips_culled_face_witness :
  shouldCullAnimation offscreen_face 640 480 = Ok true /\
  render (list face) unit log_draw (Some tt) 640 480
    [onscreen_face; offscreen_face] [] = Ok [onscreen_face].
Proof.
  assert (H : shouldCullAnimation offscreen_face 640 480 = Ok true)
    by (vm_compute; reflexivity).
  split; [exact H|].
  pose proof (render_skips_culled_face (list face) unit log_draw (Some tt)
                640 480 [onscreen_face] [] offscreen_face [] H) as E.
  cbn [app] in E. rewrite E. vm_compute. reflexivity.
Defined.

(** C1, as stated, fails: a face whose mesh lacks the required indices makes
    the cull check throw outside the per-face [try], so render throws and the
    next face, drawn when alone, is not drawn. getFacePoints itself reports
    nothing: it returns the missing points as [undefined]. *)
Lemma malformed_face_stops_render :
  noseTip (getFacePoints empty_mesh_face) = None /\
  render (list face) unit log_draw (Some tt) 640 480 [onscreen_face] []
    = Ok [onscreen_face] /\
  render (list face) unit log_draw (Some tt) 640 480
    [empty_mesh_face; onscreen_face] [] = Throw.
Proof. vm_compute. repeat split. Qed.

(** C1 (amended): getFacePoints performs no validation, each reference point
    being the mesh entry at its index ([undefined] when absent); a face whose
    filter draw throws is skipped for that face only: render continues with
    the next face from the canvas as draw left it, whether or not draw
    threw. *)
Theorem render_isolates_draw_failure (canvas filter : Type)
    (draw : filter -> face -> canvas -> canvas * bool)
    (filt : filter) (cw ch : Z) (pre post : list face) (f : face)
    (ctx : canvas) :
  (forall g, getFacePoints g =
     {| noseTip := nth_error (scaledMesh g) NOSE_TIP;
        leftEye := nth_error (scaledMesh g) LEFT_EYE;
        rightEye := nth_error (scaledMesh g) RIGHT_EYE;
        foreheadCenter := nth_error (scaledMesh g) FOREHEAD_CENTER;
        leftMouth := nth_error (scaledMesh g) LEFT_MOUTH;
        rightMouth := nth_error (scaledMesh g) RIGHT_MOUTH;
        leftCheek := nth_error (scaledMesh g) LEFT_CHEEK;
        rightCheek := nth_error (scaledMesh g) RIGHT_CHEEK |}) /\
  (shouldCullAnimation f cw ch = Ok false ->
   render canvas filter draw (Some filt) cw ch (pre ++ f :: post) ctx =
   bind (render_faces canvas filter draw filt cw ch pre ctx)
        (fun ctx1 => render_faces canvas filter draw filt cw ch post
                       (fst (draw filt f ctx1)))).
Proof.
  split; [reflexivity|]. intro Hcull.
  rewrite render_as_faces, render_faces_app.
  destruct (render_faces _ _ _ _ _ _ pre ctx); simpl; [|reflexivity].
  unfold render_face. rewrite Hcull. simpl.
  destruct (draw filt f a). reflexivity.
Qed.

(** A draw that throws on every face, after drawing it. *)
Definition throwing_draw (_ : unit) (f : face) (ctx : list face)
  : list face * bool := (f :: ctx, true).

Lemma render_isolates_draw_failure_witness :
  shouldCullAnimation onscreen_face 640 480 = Ok false /\
  render (list face) unit throwing_draw (Some tt) 640 480
    [onscreen_face; onscreen_face] [] = Ok [onscreen_face; onscreen_face].
Proof.
  assert (H : shouldCullAnimation onscreen_face 640 480 = Ok false)
    by (vm_compute; reflexivity).
  split; [exact H|].
  pose proof (proj2 (render_isolates_draw_failure (list face) unit
                throwing_draw tt 640 480 [] [onscreen_face] onscreen_face [])
                H) as E.
  cbn [app] in E. rewrite E. vm_compute. reflexivity.
Defined.

End RendererFacts.

Module MorphFacts.
Import F64 Morph.

(** A double that is [+0] or NaN. *)
Definition zero_or_nan (v : float) : Prop := v = zero \/ v = nan.

(** NaN or an infinity. *)
Definition nonfinite (v : float) : Prop :=
  match v with S754_nan | S754_infinity _ => True | _ => False end.

(** A finite positive double, such as the code's multipliers. *)
Definition pos_finite (v : float) : bool :=
  match v with S754_finite false _ _ => true | _ => false end.

Lemma sub_same (a : float) : zero_or_nan (sub a a).
Proof.
  unfold zero_or_nan, sub. destruct a as [s|s| |s m e].
  - destruct s; left; reflexivity.
  - destruct s; right; reflexivity.
  - right; reflexivity.
  - left. unfold SFsub. cbv zeta. rewrite Z.sub_diag. reflexivity.
Qed.

Lemma zn_abs (a : float) : zero_or_nan a -> zero_or_nan (abs a).
Proof. intros [-> | ->]; [left|right]; reflexivity. Qed.

Lemma zn_mul_pos (a b : float) :
  zero_or_nan a -> pos_finite b = true -> zero_or_nan (mul a b).
Proof.
  intros [-> | ->] Hb; destruct b as [s|s| |[|] m e]; try discriminate;
    [left|right]; reflexivity.
Qed.

Lemma div_zn_nonfinite (d r : float) : zero_or_nan r -> nonfinite (div d r).
Proof.
  intros [-> | ->]; destruct d as [s|s| |s m e]; simpl; exact I.
Qed.

Lemma falloff_nonfinite (M : mathImpl) (b : bool) (e v : float) :
  nonfinite v -> falloff M b e v = nan.
Proof.
  destruct v as [s|s| |s m ex]; intro H; try contradiction; destruct b; reflexivity.
Qed.

Lemma sq_nonfinite (v : float) :
  nonfinite v -> mul v v = S754_infinity false \/ mul v v = nan.
Proof.
  destruct v as [s|s| |s m e]; intro H; try contradiction;
    [left; destruct s | right]; reflexivity.
Qed.

Lemma add_pinf_or_nan (a b : float) :
  a = S754_infinity false \/ a = nan ->
  add a b = S754_infinity false \/ add a b = nan.
Proof.
  intros [-> | ->]; destruct b as [s|s| |s m e];
    try (destruct s); first [left; reflexivity | right; reflexivity].
Qed.

Lemma mul_nan_r (a : float) : mul a nan = nan.
Proof. destruct a; reflexivity. Qed.

(** With [w] zero or NaN, a distance [|v|] not above [w * 0.6] gives the
    ratio [|v| / (w * k)] NaN. *)
Lemma ratio_nan (v w k : float) :
  zero_or_nan w -> pos_finite k = true ->
  gt (abs v) (mul w (dec 6 1)) = false -> div (abs v) (mul w k) = nan.
Proof.
  intros [-> | ->] Hk G; destruct k as [s|s| |[|] m e]; try discriminate;
    destruct v as [sv|sv| |sv mv ev]; try discriminate; reflexivity.
Qed.

Lemma not_positive (v : float) : zero_or_nan v -> gt v zero = false.
Proof. intros [-> | ->]; reflexivity. Qed.

Lemma slim_step_not_positive st fc v nx :
  gt v zero = false -> slim_step st fc v nx = nx.
Proof. intro H. unfold slim_step. rewrite H. reflexivity. Qed.

Lemma enlarge_step_not_positive st sf c v p :
  gt v zero = false -> enlarge_step st sf c v p = p.
Proof. intro H. unfold enlarge_step. rewrite H. reflexivity. Qed.

Lemma eye_degenerate M st x y c lm :
  X (leftEyeOuter lm) = X (leftEyeInner lm) ->
  zero_or_nan (calculateEyeInfluence M st x y c lm).
Proof.
  intro H. destruct c as [c|]; [|left; reflexivity].
  unfold calculateEyeInfluence. cbv zeta. rewrite H.
  match goal with
  | |- zero_or_nan (if gt ?d ?r then zero else falloff M ?b ?e (div ?d ?r)) =>
      assert (Hr : zero_or_nan r);
      [| destruct (gt d r); [left; reflexivity|];
         right; apply falloff_nonfinite, div_zn_nonfinite, Hr]
  end.
  apply zn_mul_pos; [apply zn_mul_pos; [apply zn_abs, sub_same | reflexivity]|].
  destruct (gt (eyeScaleFactor st) (dec 20 1)); reflexivity.
Qed.

Lemma mouth_degenerate M st x y c lm l r :
  mouthLeftCorner lm = Some l -> mouthRightCorner lm = Some r -> X l = X r ->
  zero_or_nan (calculateMouthInfluence M st x y c lm).
Proof.
  intros Hl Hr H. destruct c as [c|]; [|left; reflexivity].
  unfold calculateMouthInfluence. rewrite Hl, Hr. cbv zeta. rewrite H.
  assert (Hsm : pos_finite (if gt (mouthScaleFactor st) (dec 18 1)
                            then MOUTH_EXTREME_MULTIPLIER else dec 10 1) = true)
    by (destruct (gt (mouthScaleFactor st) (dec 18 1)); reflexivity).
  assert (HrX : zero_or_nan (mul (mul (abs (sub (X r) (X r))) MOUTH_REGION_MULTIPLIER)
                  (if gt (mouthScaleFactor st) (dec 18 1)
                   then MOUTH_EXTREME_MULTIPLIER else dec 10 1)))
    by (apply zn_mul_pos; [apply zn_mul_pos; [apply zn_abs, sub_same|reflexivity]
                          | exact Hsm]).
  match goal with
  | |- context [sqrt (add (mul ?a ?a) (mul ?b ?b))] =>
      destruct (add_pinf_or_nan (mul a a) (mul b b)
                  (sq_nonfinite a (div_zn_nonfinite _ _ HrX))) as [E|E];
      rewrite E
  end.
  - left. reflexivity.
  - right. apply (falloff_nonfinite M _ _ nan I).
Qed.

Lemma face_width_degenerate x y lm :
  X (faceLeft lm) = X (faceRight lm) ->
  zero_or_nan (calculateFaceSlimInfluence x y lm).
Proof.
  intro H. unfold calculateFaceSlimInfluence. cbv zeta. rewrite H.
  match goal with
  | |- zero_or_nan (if gt ?dX (mul ?w _) || gt ?dY (mul ?h _) then _ else _) =>
      destruct (gt dX (mul w FACE_WIDTH_INFLUENCE)) eqn:G; [left; reflexivity|];
      destruct (gt dY (mul h FACE_HEIGHT_INFLUENCE)); [left; reflexivity|]
  end.
  right. cbn [orb]. rewrite ratio_nan; [reflexivity | apply zn_abs, sub_same
                                        | reflexivity | exact G].
Qed.

Lemma face_height_degenerate x y lm :
  Y (foreheadCenter lm) = Y (chinTip lm) ->
  zero_or_nan (calculateFaceSlimInfluence x y lm).
Proof.
  intro H. unfold calculateFaceSlimInfluence. cbv zeta. rewrite H.
  match goal with
  | |- zero_or_nan (if gt ?dX (mul ?w _) || gt ?dY (mul ?h _) then _ else _) =>
      destruct (gt dX (mul w FACE_WIDTH_INFLUENCE)); [left; reflexivity|];
      destruct (gt dY (mul h FACE_HEIGHT_INFLUENCE)) eqn:G; [left; reflexivity|]
  end.
  right. cbn [orb]. rewrite (ratio_nan _ _ (dec 6 1)); [| apply zn_abs, sub_same
                                        | reflexivity | exact G].
  rewrite mul_nan_r. reflexivity.
Qed.

Definition degenerate_eye_landmarks : landmarks :=
  {| leftEyeCenter := Some (of_Z 220, of_Z 200);
     rightEyeCenter := Some (of_Z 420, of_Z 200);
     leftEyeInner := (of_Z 190, of_Z 200); leftEyeOuter := (of_Z 190, of_Z 200);
     faceLeft := (of_Z 180, of_Z 300); faceRight := (of_Z 460, of_Z 300);
     chinTip := (of_Z 320, of_Z 380); foreheadCenter := (of_Z 320, of_Z 120);
     mouthLeftCorner := Some (of_Z 280, of_Z 320);
     mouthRightCorner := Some (of_Z 360, of_Z 320);
     mouthTopCenter := Some (of_Z 320, of_Z 310);
     mouthBottomCenter := Some (of_Z 320, of_Z 335);
     mouthCenter := Some (of_Z 320, of_Z 320) |}.

(** At the eye center of [degenerate_eye_landmarks] the distance and the
    radius are both 0, and the influence is [0/0] fed to the falloff: NaN,
    whatever the engine's [Math.cos] and [Math.pow]. *)
Lemma eye_nan_at_center_any_math (M : mathImpl) :
  calculateEyeInfluence M MORPH_HIGH (of_Z 220) (of_Z 200)
    (Some (of_Z 220, of_Z 200)) degenerate_eye_landmarks = nan.
Proof. vm_compute. reflexivity. Qed.

(** C3, as stated, fails: with the left eye's corners at the same x, the eye
    influence at the eye center (220, 200) is NaN, not 0. *)
Lemma eye_influence_nan_at_center :
  calculateEyeInfluence Math_ref MORPH_HIGH (of_Z 220) (of_Z 200)
    (Some (of_Z 220, of_Z 200)) degenerate_eye_landmarks = nan /\
  calculateEyeInfluence Math_ref MORPH_HIGH (of_Z 220) (of_Z 200)
    (Some (of_Z 220, of_Z 200)) degenerate_eye_landmarks <> zero.
Proof.
  rewrite eye_nan_at_center_any_math. split; [reflexivity | discriminate].
Qed.

(** C3 (amended): when the two landmarks fixing a deformation's width (or the
    face's height) coincide, its influence is [+0] or NaN at every point,
    never positive, so inverseTransformPoint skips that deformation: the
    result is the one computed with its influence set to 0. This holds in
    binary64 for every point and every engine [Math]. *)
Theorem degenerate_region_no_influence (M : mathImpl) (st : morphState)
    (x y : float) (lm : landmarks) :
  (X (leftEyeOuter lm) = X (leftEyeInner lm) ->
   (forall c, calculateEyeInfluence M st x y c lm = zero \/
              calculateEyeInfluence M st x y c lm = nan) /\
   inverseTransformPoint M st x y lm =
   apply_influences st lm (calculateFaceSlimInfluence x y lm) zero zero
     (calculateMouthInfluence M st x y (mouthCenter lm) lm) x y) /\
  (forall l r, mouthLeftCorner lm = Some l -> mouthRightCorner lm = Some r ->
   X l = X r ->
   (forall c, calculateMouthInfluence M st x y c lm = zero \/
              calculateMouthInfluence M st x y c lm = nan) /\
   inverseTransformPoint M st x y lm =
   apply_influences st lm (calculateFaceSlimInfluence x y lm)
     (calculateEyeInfluence M st x y (leftEyeCenter lm) lm)
     (calculateEyeInfluence M st x y (rightEyeCenter lm) lm) zero x y) /\
  (X (faceLeft lm) = X (faceRight lm) \/ Y (foreheadCenter lm) = Y (chinTip lm) ->
   (calculateFaceSlimInfluence x y lm = zero \/
    calculateFaceSlimInfluence x y lm = nan) /\
   inverseTransformPoint M st x y lm =
   apply_influences st lm zero
     (calculateEyeInfluence M st x y (leftEyeCenter lm) lm)
     (calculateEyeInfluence M st x y (rightEyeCenter lm) lm)
     (calculateMouthInfluence M st x y (mouthCenter lm) lm) x y).
Proof.
  unfold inverseTransformPoint, apply_influences.
  split; [|split].
  - intro H. split; [intro c; apply eye_degenerate; exact H|].
    rewrite (enlarge_step_not_positive st (eyeScaleFactor st) (leftEyeCenter lm)
               (calculateEyeInfluence M st x y (leftEyeCenter lm) lm))
      by (apply not_positive, eye_degenerate, H).
    rewrite (enlarge_step_not_positive st (eyeScaleFactor st) (rightEyeCenter lm)
               (calculateEyeInfluence M st x y (rightEyeCenter lm) lm))
      by (apply not_positive, eye_degenerate, H).
    reflexivity.
  - intros l r Hl Hr H. split; [intro c; eapply mouth_degenerate; eauto|].
    rewrite (enlarge_step_not_positive st (mouthScaleFactor st) (mouthCenter lm)
               (calculateMouthInfluence M st x y (mouthCenter lm) lm))
      by (apply not_positive; eapply mouth_degenerate; eauto).
    reflexivity.
  - intro H.
    assert (Hf : zero_or_nan (calculateFaceSlimInfluence x y lm))
      by (destruct H; [apply face_width_degenerate | apply face_height_degenerate];
          assumption).
    split; [exact Hf|].
    rewrite (slim_step_not_positive st _ (calculateFaceSlimInfluence x y lm))
      by (apply not_positive, Hf).
    reflexivity.
Qed.

Lemma degenerate_region_no_influence_witness :
  X (leftEyeOuter degenerate_eye_landmarks) =
    X (leftEyeInner degenerate_eye_landmarks) /\
  inverseTransformPoint Math_ref MORPH_HIGH (of_Z 220) (of_Z 200)
    degenerate_eye_landmarks =
  apply_influences MORPH_HIGH degenerate_eye_landmarks
    (calculateFaceSlimInfluence (of_Z 220) (of_Z 200) degenerate_eye_landmarks)
    zero zero
    (calculateMouthInfluence Math_ref MORPH_HIGH (of_Z 220) (of_Z 200)
       (mouthCenter degenerate_eye_landmarks) degenerate_eye_landmarks)
    (of_Z 220) (of_Z 200).
Proof.
  split; [reflexivity|].
  exact (proj2 (proj1 (degenerate_region_no_influence Math_ref MORPH_HIGH
                          (of_Z 220) (of_Z 200) degenerate_eye_landmarks) eq_refl)).
Defined.

(** The MorphFilter at intensity 0, the other factors as in [MORPH.HIGH]. *)
Definition MORPH_OFF : morphState :=
  {| intensity := zero; eyeScaleFactor := eyeScaleFactor MORPH_HIGH;
     mouthScaleFactor := mouthScaleFactor MORPH_HIGH;
     faceSlimFactor := faceSlimFactor MORPH_HIGH;
     jawReductionFactor := jawReductionFactor MORPH_HIGH |}.

(** A face whose center line [(faceLeft.x + faceRight.x) / 2] is -29.95,
    with the eyes and the mouth away from the point (3, 250). *)
Definition offset_face_landmarks : landmarks :=
  {| leftEyeCenter := Some (of_Z (-60), of_Z 200);
     rightEyeCenter := Some (of_Z 10, of_Z 200);
     leftEyeInner := (of_Z (-48), of_Z 200); leftEyeOuter := (of_Z (-72), of_Z 200);
     faceLeft := (of_Z (-120), of_Z 300); faceRight := (dec 601 1, of_Z 300);
     chinTip := (of_Z (-20), of_Z 380); foreheadCenter := (of_Z (-20), of_Z 120);
     mouthLeftCorner := Some (of_Z (-40), of_Z 320);
     mouthRightCorner := Some (of_Z 0, of_Z 320);
     mouthTopCenter := Some (of_Z (-20), of_Z 310);
     mouthBottomCenter := Some (of_Z (-20), of_Z 335);
     mouthCenter := Some (of_Z (-20), of_Z 320) |}.

(** C8 fails in the code: at intensity 0 the face influence at (3, 250) is
    about 0.31, so the slimming step still runs, and
    [faceCenter + (3 - faceCenter) * 1] rounds to 3.0000000000000036
    (the double [6755399441055752 * 2^-51]); the point does not come back
    unchanged, whatever the engine's [Math]. *)
Theorem inverse_transform_zero_intensity_moves (M : mathImpl) :
  gt (calculateFaceSlimInfluence (of_Z 3) (of_Z 250) offset_face_landmarks) zero = true /\
  inverseTransformPoint M MORPH_OFF (of_Z 3) (of_Z 250) offset_face_landmarks =
    (S754_finite false 6755399441055752 (-51), of_Z 250) /\
  fst (inverseTransformPoint M MORPH_OFF (of_Z 3) (of_Z 250) offset_face_landmarks)
    <> of_Z 3.
Proof.
  split; [vm_compute; reflexivity|].
  split; [vm_compute; reflexivity|].
  vm_compute. discriminate.
Qed.

End MorphFacts.

Module PerformanceExtraFacts.
Import PerformanceManager PerformanceExtra.

Lemma shouldSkipFrame_false_iff (s : state) (k : Z) :
  1 <= dynamicSkipInterval s ->
  shouldSkipFrame s k = false <-> Z.rem k (dynamicSkipInterval s) = 0.
Proof.
  intro H. unfold shouldSkipFrame.
  destruct (Z.eqb_spec (dynamicSkipInterval s) 0); [lia|].
  destruct (Z.eqb_spec (Z.rem k (dynamicSkipInterval s)) 0); simpl;
    split; congruence.
Qed.

Lemma rem_zero_nonneg (k i : Z) :
  0 <= k -> 0 < i -> Z.rem k i = 0 -> k = i * (k / i).
Proof.
  intros Hk Hi H. rewrite Z.rem_mod_nonneg in H by lia.
  pose proof (Z.div_mod k i). lia.
Qed.

(** X1: in any state updateFPS reaches from the constructor, among any
    [dynamicSkipInterval] consecutive non-negative frame counters exactly one
    is not skipped (detection runs), and that interval is between 1 and 5. *)
Theorem detection_once_per_interval (ds : list Q) (c : Z) :
  0 <= c ->
  1 <= dynamicSkipInterval (run init ds) <= 5 /\
  (exists k, c <= k < c + dynamicSkipInterval (run init ds) /\
             shouldSkipFrame (run init ds) k = false) /\
  (forall k1 k2,
     c <= k1 < c + dynamicSkipInterval (run init ds) ->
     c <= k2 < c + dynamicSkipInterval (run init ds) ->
     shouldSkipFrame (run init ds) k1 = false ->
     shouldSkipFrame (run init ds) k2 = false -> k1 = k2).
Proof.
  intro Hc.
  assert (Hb : 1 <= dynamicSkipInterval (run init ds) <= 5)
    by (apply PerformanceFacts.run_skip_bounds; simpl; lia).
  set (s := run init ds) in *. set (i := dynamicSkipInterval s) in *.
  split; [exact Hb|split].
  - exists (i * ((c + i - 1) / i)).
    pose proof (Z.div_mod (c + i - 1) i ltac:(lia)).
    pose proof (Z.mod_pos_bound (c + i - 1) i ltac:(lia)).
    split; [nia|].
    apply shouldSkipFrame_false_iff; [lia|].
    fold i. rewrite Z.mul_comm. apply Z.rem_mul. lia.
  - intros k1 k2 H1 H2 E1 E2.
    apply shouldSkipFrame_false_iff in E1; [|lia].
    apply shouldSkipFrame_false_iff in E2; [|lia].
    fold i in E1, E2.
    apply rem_zero_nonneg in E1; [|lia|lia].
    apply rem_zero_nonneg in E2; [|lia|lia].
    assert (k1 / i = k2 / i) by nia. congruence.
Qed.

Lemma detection_once_per_interval_witness :
  (0 <= 7)%Z /\
  exists k, 7 <= k < 7 + dynamicSkipInterval (run init []) /\
            shouldSkipFrame (run init []) k = false.
Proof.
  split; [lia|].
  exact (proj1 (proj2 (detection_once_per_interval [] 7 ltac:(lia)))).
Defined.

(** X2: manageTensorMemory sets the pressure level MemoryManager's
    getMemoryPressure reports for the same tensor count (2 above 50
    tensors, 1 above 25, else 0), calls tf.disposeVariables exactly when
    the count exceeds 50, and changes no other field. *)
Theorem manageTensorMemory_levels (s : state) (n : Z) :
  memoryPressureLevel (fst (manageTensorMemory s n)) = getMemoryPressure n /\
  (getMemoryPressure n = 2 <-> 50 < n) /\
  (getMemoryPressure n = 1 <-> 25 < n <= 50) /\
  (getMemoryPressure n = 0 <-> n <= 25) /\
  (snd (manageTensorMemory s n) = true <-> 50 < n) /\
  performanceLevel (fst (manageTensorMemory s n)) = performanceLevel s /\
  fps (fst (manageTensorMemory s n)) = fps s /\
  frameCount (fst (manageTensorMemory s n)) = frameCount s /\
  dynamicSkipInterval (fst (manageTensorMemory s n)) = dynamicSkipInterval s.
Proof.
  unfold manageTensorMemory, getMemoryPressure,
    PRESSURE_THRESHOLD_HIGH, PRESSURE_THRESHOLD_LOW; simpl.
  destruct (Z.gtb_spec n 50); destruct (Z.gtb_spec n 25); simpl;
    repeat split; intros; lia.
Qed.

(** X3: after manageTensorMemory with [n] tensors, getQualitySettings keeps
    skip-frames within [1, 5], particle-count at least 1 and shadow-blur at
    least 0, and degrades monotonically: more tensors never give fewer
    skipped frames, more particles or more blur. *)
Theorem quality_degrades_with_tensors (s : state) (n n' : Z) :
  n <= n' ->
  let q := getQualitySettings (fst (manageTensorMemory s n)) in
  let q' := getQualitySettings (fst (manageTensorMemory s n')) in
  1 <= skipFrames q <= 5 /\ 1 <= particleCount q /\ 0 <= shadowBlur q /\
  skipFrames q <= skipFrames q' /\ particleCount q' <= particleCount q /\
  shadowBlur q' <= shadowBlur q.
Proof.
  intro Hn. cbv zeta.
  unfold getQualitySettings, manageTensorMemory,
    PRESSURE_THRESHOLD_HIGH, PRESSURE_THRESHOLD_LOW; cbn [memoryPressureLevel performanceLevel].
  destruct (Z.gtb_spec n 50); destruct (Z.gtb_spec n 25);
  destruct (Z.gtb_spec n' 50); destruct (Z.gtb_spec n' 25);
  try lia; destruct (performanceLevel s); simpl; repeat split; lia.
Qed.

Lemma quality_degrades_with_tensors_witness :
  (30 <= 60)%Z /\
  skipFrames (getQualitySettings (fst (manageTensorMemory init 30))) <=
  skipFrames (getQualitySettings (fst (manageTensorMemory init 60))).
Proof.
  split; [lia|].
  exact (proj1 (proj2 (proj2 (proj2 (quality_degrades_with_tensors init 30 60 ltac:(lia)))))).
Defined.

End PerformanceExtraFacts.

Module AppFacts.
Import Geometry PerformanceManager PerformanceExtra JsObject Interpolation App.
Local Open Scope string_scope.

Lemma memory_check_id (a : app) (n : Z) : memory_check a n = a.
Proof. reflexivity. Qed.

Lemma updateFPS_pressure (s : state) (dt : Q) :
  memoryPressureLevel (updateFPS s dt) = memoryPressureLevel s.
Proof.
  unfold updateFPS.
  repeat match goal with |- context [if ?b then _ else _] => destruct b end;
  reflexivity.
Qed.

Lemma quality_obj_no_pressure (s : state) :
  memoryPressureLevel s = 0 -> getQualitySettings_obj s = PERFORMANCE_obj (performanceLevel s).
Proof. intro H. unfold getQualitySettings_obj. rewrite H. reflexivity. Qed.

Lemma animate_shape (renderCall : list face -> obj -> jsResult unit)
    (a : app) (inp : frameInput) :
  pm (fst (animate renderCall a inp)) = updateFPS (pm a) (deltaTime inp) /\
  forall faces q, snd (animate renderCall a inp) = Some (faces, q) ->
    q = getQualitySettings_obj (updateFPS (pm a) (deltaTime inp)).
Proof.
  unfold animate. cbv zeta.
  destruct (negb _).
  - destruct (Movement.calculateFaceMovement _ _) as [[m|] last'].
    + destruct (detectedFaces inp) as [|f fs].
      * split; [reflexivity|]. discriminate.
      * destruct (renderCall _ _); (split; [reflexivity|]);
          intros faces q E; injection E; intros; subst; reflexivity.
    + split; [reflexivity|]. discriminate.
  - destruct (interpolateFaces _ _ _) as [cache' faces0].
    destruct faces0 as [|f fs].
    + split; [reflexivity|]. discriminate.
    + destruct (renderCall _ _); (split; [reflexivity|]);
        intros faces q E; injection E; intros; subst; reflexivity.
Qed.

Lemma run_app_pressure (renderCall : list face -> obj -> jsResult unit)
    (inputs : list frameInput) : forall a,
  memoryPressureLevel (pm a) = 0 ->
  memoryPressureLevel (pm (fst (run_app renderCall a inputs))) = 0 /\
  Forall (fun o => match o with
                   | Some (_, q) => exists t, q = PERFORMANCE_obj t
                   | None => True
                   end) (snd (run_app renderCall a inputs)).
Proof.
  induction inputs as [|inp rest IH]; intros a Ha; simpl; [split; auto|].
  destruct (animate_shape renderCall a inp) as [Hpm Hq].
  destruct (animate renderCall a inp) as [a' o] eqn:E. simpl in Hpm, Hq.
  assert (Ha' : memoryPressureLevel (pm a') = 0)
    by (rewrite Hpm, updateFPS_pressure; exact Ha).
  destruct (IH a' Ha') as [H1 H2].
  destruct (run_app renderCall a' rest) as [a'' os]; simpl in *.
  split; [exact H1|]. constructor; [|exact H2].
  destruct o as [[faces q]|]; [|exact I].
  exists (performanceLevel (updateFPS (pm a) (deltaTime inp))).
  rewrite (Hq faces q eq_refl). apply quality_obj_no_pressure.
  rewrite updateFPS_pressure. exact Ha.
Qed.

(** X4: animate never runs manageTensorMemory (getStats has no
    [cleanupInterval], so [frameCount % undefined] is NaN, never 0): over any
    run of frames from the constructors the memory-pressure level stays 0,
    and every quality-settings object handed to render is a tier's
    [PERFORMANCE] entry, never adjusted for memory pressure. *)
Theorem animate_never_adjusts_quality
    (renderCall : list face -> obj -> jsResult unit) (inputs : list frameInput) :
  memoryPressureLevel (pm (fst (run_app renderCall app_init inputs))) = 0 /\
  Forall (fun o => match o with
                   | Some (_, q) => exists t, q = PERFORMANCE_obj t
                   | None => True
                   end) (snd (run_app renderCall app_init inputs)).
Proof. apply run_app_pressure. reflexivity. Qed.

(** Equality of JS numbers: points equal componentwise as rationals. *)
Definition point_eqv (p q : point3) : Prop :=
  let '(a, b, c) := p in let '(a', b', c') := q in
  (a == a' /\ b == b' /\ c == c')%Q.

Definition face_eqv (f g : face) : Prop :=
  faceRest f = faceRest g /\ Forall2 point_eqv (scaledMesh f) (scaledMesh g).

Lemma mapi_from_self {A : Type} (R : A -> A -> Prop) (f : nat -> A -> A) :
  forall (l : list A) k,
  (forall i x, nth_error l i = Some x -> R (f (k + i)%nat x) x) ->
  Forall2 R (mapi_from f k l) l.
Proof.
  induction l as [|x l IH]; intros k H; simpl; constructor.
  - specialize (H 0%nat x eq_refl). rewrite Nat.add_0_r in H. exact H.
  - apply IH. intros i y Hy. specialize (H (S i) y Hy).
    rewrite Nat.add_succ_r in H. exact H.
Qed.

Lemma blend_self (p : Q) (c : point3) : point_eqv (blend p c c) c.
Proof. destruct c as [[x y] z]. simpl. repeat split; ring. Qed.

Lemma interpolate_self (l : list face) (p : Q) :
  Forall2 face_eqv (mapi (interpolate_face l p) l) l.
Proof.
  apply mapi_from_self. intros i f Hf. simpl.
  unfold interpolate_face. rewrite Hf. split; [reflexivity|]. simpl.
  apply mapi_from_self. intros j pt Hpt. simpl. rewrite Hpt. apply blend_self.
Qed.

(** X5: on a frame where detection is skipped, animate renders the cached
    faces from the last detection, every landmark unchanged (the code
    interpolates the cache against itself), and the cache stays as it
    was; an empty cache renders nothing. *)
Theorem skip_frame_renders_cached_faces
    (renderCall : list face -> obj -> jsResult unit) (a : app)
    (inp : frameInput) (l : list face) :
  cachedFaces a = Some l ->
  shouldSkipFrame (updateFPS (pm a) (deltaTime inp)) (skipFrameCounter a) = true ->
  cachedFaces (fst (animate renderCall a inp)) = Some l /\
  match snd (animate renderCall a inp) with
  | Some (faces, _) => Forall2 face_eqv faces l
  | None => l = []
  end.
Proof.
  intros Hc Hs. unfold animate. cbv zeta. rewrite Hs. simpl negb.
  cbn [cachedFaces]. rewrite Hc.
  destruct l as [|f fs]; simpl.
  - split; reflexivity.
  - destruct (renderCall _ _); (split; [reflexivity|]); apply interpolate_self.
Qed.

Definition nose_face (x y : Q) : face :=
  {| scaledMesh := [(0, 0, 0); (x, y, 0)]%Q; faceRest := [] |}.

Definition pm_skip2 : state :=
  {| performanceLevel := MEDIUM; fps := FpsNum 20; frameCount := 0;
     dynamicSkipInterval := 2; memoryPressureLevel := 0 |}.

Definition app_cached : app :=
  {| pm := pm_skip2; lastFaces := [nose_face 1 2]; cachedFaces := Some [nose_face 1 2];
     skipFrameCounter := 1; animationTime := 0 |}.

Definition frame_in : frameInput :=
  {| deltaTime := 33; detectedFaces := []; numTensors := 0 |}.

Definition no_render (_ : list face) (_ : obj) : jsResult unit := Ok tt.

Lemma skip_frame_renders_cached_faces_witness :
  cachedFaces app_cached = Some [nose_face 1 2] /\
  cachedFaces (fst (animate no_render app_cached frame_in)) = Some [nose_face 1 2].
Proof.
  split; [reflexivity|].
  exact (proj1 (skip_frame_renders_cached_faces no_render app_cached frame_in
                  [nose_face 1 2] eq_refl eq_refl)).
Defined.

Lemma nth_error_combine {A B : Type} : forall (l1 : list A) (l2 : list B) i x y,
  nth_error l1 i = Some x -> nth_error l2 i = Some y ->
  nth_error (combine l1 l2) i = Some (x, y).
Proof.
  induction l1 as [|a l1 IH]; intros l2 i x y H1 H2;
    [destruct i; discriminate|].
  destruct l2 as [|b l2]; [destruct i; discriminate|].
  destruct i; simpl in *; [congruence|]. apply IH; assumption.
Qed.

Lemma movement_loop_throw (pairs : list (face * face)) (f g : face) :
  In (f, g) pairs -> nth_error (scaledMesh f) 1 = None ->
  forall t c, Movement.movement_loop pairs t c = Throw.
Proof.
  induction pairs as [|[nf og] rest IH]; intros Hin Hf t c; [destruct Hin|].
  cbn [Movement.movement_loop]. cbv zeta. destruct Hin as [E | Hin].
  - injection E; intros; subst. rewrite Hf. reflexivity.
  - destruct (nth_error (scaledMesh nf) 1) as [[[nx ny] nz]|]; [|reflexivity].
    destruct (nth_error (scaledMesh og) 1) as [[[ox oy] oz]|]; [|reflexivity].
    simpl. apply IH; assumption.
Qed.

(** X6: on a detection frame, if a detected face at a position the previous
    detection also had lacks mesh point 1 (the nose), calculateFaceMovement
    throws: the frame renders nothing and leaves both the movement history
    [lastFaces] and the interpolation cache [cachedFaces] as they were. *)
Theorem detection_frame_missing_nose
    (renderCall : list face -> obj -> jsResult unit) (a : app)
    (inp : frameInput) (i : nat) (f g : face) :
  shouldSkipFrame (updateFPS (pm a) (deltaTime inp)) (skipFrameCounter a) = false ->
  nth_error (detectedFaces inp) i = Some f ->
  nth_error (lastFaces a) i = Some g ->
  nth_error (scaledMesh f) 1 = None ->
  snd (animate renderCall a inp) = None /\
  lastFaces (fst (animate renderCall a inp)) = lastFaces a /\
  cachedFaces (fst (animate renderCall a inp)) = cachedFaces a.
Proof.
  intros Hs Hf Hg Hn. unfold animate. cbv zeta. rewrite Hs. simpl negb.
  cbn [lastFaces].
  assert (E : fst (Movement.calculateFaceMovement (lastFaces a) (detectedFaces inp)) = Throw).
  { unfold Movement.calculateFaceMovement.
    rewrite (movement_loop_throw _ f g) by
      (try assumption; apply nth_error_In with i; apply nth_error_combine; assumption).
    destruct (lastFaces a) as [|g0 gs]; [destruct i; discriminate|].
    destruct (detectedFaces inp) as [|f0 fs]; [destruct i; discriminate|].
    reflexivity. }
  destruct (Movement.calculateFaceMovement _ _) as [[m|] last']; simpl in E;
    [discriminate|].
  repeat split; reflexivity.
Qed.

Definition noseless_face : face := {| scaledMesh := [(0, 0, 0)%Q]; faceRest := [] |}.

Definition frame_noseless : frameInput :=
  {| deltaTime := 33; detectedFaces := [noseless_face]; numTensors := 0 |}.

Definition app_tracking : app :=
  {| pm := init; lastFaces := [nose_face 1 2]; cachedFaces := Some [nose_face 1 2];
     skipFrameCounter := 0; animationTime := 0 |}.

Lemma detection_frame_missing_nose_witness :
  nth_error (scaledMesh noseless_face) 1 = None /\
  snd (animate no_render app_tracking frame_noseless) = None.
Proof.
  split; [reflexivity|].
  exact (proj1 (detection_frame_missing_nose no_render app_tracking frame_noseless
                  0 noseless_face (nose_face 1 2) eq_refl eq_refl eq_refl eq_refl)).
Defined.

End AppFacts.

Module DrawSettingsFacts.
Import PerformanceManager PerformanceExtra JsObject DrawSettings.
Local Open Scope string_scope.

Lemma quality_obj_no_level (s : state) :
  get (getQualitySettings_obj s) "performanceLevel" = JUndefined.
Proof.
  unfold getQualitySettings_obj.
  destruct (performanceLevel s), (0 <? memoryPressureLevel s); reflexivity.
Qed.

(** X7: the settings object getQualitySettings builds never has a
    [performanceLevel] key, so FilterRenderer.render always hands draw
    [performanceLevel: 'high'], and MorphFilter.adjustForPerformance on it
    always selects the [MORPH.HIGH] parameters, whatever the performance
    tier or memory pressure. *)
Theorem draw_always_gets_high (s : state) (m : Morph.morphState) :
  get (drawSettings (getQualitySettings_obj s)) "performanceLevel" = JStr "high" /\
  adjustForPerformance m
    (get (drawSettings (getQualitySettings_obj s)) "performanceLevel")
  = Geometry.Ok Morph.MORPH_HIGH.
Proof.
  unfold drawSettings. rewrite quality_obj_no_level.
  assert (E : get (set (getQualitySettings_obj s) "performanceLevel"
                     (js_or JUndefined (JStr "high"))) "performanceLevel" = JStr "high").
  { unfold getQualitySettings_obj.
    destruct (performanceLevel s), (0 <? memoryPressureLevel s); reflexivity. }
  rewrite E. split; reflexivity.
Qed.

End DrawSettingsFacts.

Module MovementFacts.
Import Geometry JsNum Movement.
Local Open Scope R_scope.

Lemma movement_loop_nonneg : forall pairs t c t' c',
  movement_loop pairs t c = Ok (t', c') -> 0 <= t ->
  0 <= t' /\ c' = (c + length pairs)%nat.
Proof.
  induction pairs as [|[nf og] rest IH]; intros t c t' c' H Ht.
  - simpl in H. injection H; intros; subst. split; [lra|simpl; lia].
  - cbn [movement_loop] in H. cbv zeta in H.
    destruct (nth_error (scaledMesh nf) 1) as [[[nx ny] nz]|]; [|discriminate].
    destruct (nth_error (scaledMesh og) 1) as [[[ox oy] oz]|]; [|discriminate].
    simpl in H. apply IH in H.
    + destruct H as [H1 H2]. split; [exact H1|]. simpl. lia.
    + apply Rplus_le_le_0_compat; [exact Ht|apply sqrt_pos].
Qed.

(** X8: calculateFaceMovement never yields NaN or a negative number: a
    finite result is at least 0, Infinity comes only when there are no
    previous or no new faces, and [lastFaces] becomes the new faces unless
    the call throws, in which case it is left as it was. *)
Theorem calculateFaceMovement_result (lastFaces newFaces : list face) :
  match calculateFaceMovement lastFaces newFaces with
  | (Ok (Fin m), l) => 0 <= m /\ l = newFaces
  | (Ok PInf, l) => l = newFaces /\ (lastFaces = [] \/ newFaces = [])
  | (Ok _, _) => False
  | (Throw, l) => l = lastFaces
  end.
Proof.
  unfold calculateFaceMovement.
  destruct lastFaces as [|g gs]; [split; auto|].
  destruct newFaces as [|f fs]; [split; auto|].
  destruct (movement_loop _ 0 0) as [[t c]|] eqn:E; [|reflexivity].
  apply movement_loop_nonneg in E; [|lra]. destruct E as [Ht Hc].
  assert (Hpos : (0 < c)%nat) by (rewrite Hc; simpl; lia).
  pose proof Hpos as Hb. apply Nat.ltb_lt in Hb. rewrite Hb.
  split; [|reflexivity].
  apply Rmult_le_pos; [exact Ht|].
  apply Rlt_le, Rinv_0_lt_compat, lt_0_INR. exact Hpos.
Qed.

End MovementFacts.

Module MorphLandmarksFacts.
Import MorphLandmarks.

(** X10: on a mesh without iris points (at most 468 points, what the
    detector returns with [refineLandmarks: false]), getMorphingLandmarks
    falls back to the eye corners: [leftEyeCenter] is [mesh[33]], the same
    point as [leftEyeOuter], and [rightEyeCenter] is [mesh[263]]. *)
Theorem eye_centers_without_iris (f : face) :
  (length (scaledMesh f) <= 468)%nat ->
  leftEyeCenter (getMorphingLandmarks f) = nth_error (scaledMesh f) 33 /\
  leftEyeCenter (getMorphingLandmarks f) = leftEyeOuter (getMorphingLandmarks f) /\
  rightEyeCenter (getMorphingLandmarks f) = nth_error (scaledMesh f) 263.
Proof.
  intro H. unfold getMorphingLandmarks.
  cbn [leftEyeCenter rightEyeCenter leftEyeOuter].
  rewrite (proj2 (nth_error_None (scaledMesh f) LEFT_EYE_CENTER))
    by (unfold LEFT_EYE_CENTER; lia).
  rewrite (proj2 (nth_error_None (scaledMesh f) RIGHT_EYE_CENTER))
    by (unfold RIGHT_EYE_CENTER; lia).
  repeat split; reflexivity.
Qed.

Definition flat_face (n : nat) : face :=
  {| scaledMesh := repeat (0, 0, 0)%Q n; faceRest := [] |}.

Lemma eye_centers_without_iris_witness :
  (length (scaledMesh (flat_face 468)) <= 468)%nat /\
  leftEyeCenter (getMorphingLandmarks (flat_face 468))
  = leftEyeOuter (getMorphingLandmarks (flat_face 468)).
Proof.
  assert (H : (length (scaledMesh (flat_face 468)) <= 468)%nat)
    by (unfold flat_face; cbn [scaledMesh]; rewrite repeat_length; lia).
  split; [exact H|].
  exact (proj1 (proj2 (eye_centers_without_iris (flat_face 468) H))).
Defined.

End MorphLandmarksFacts.

Module MathUtilsFacts.
Import JsNum MathUtils.
Local Open Scope R_scope.

Lemma js_floor_spec (x : R) : IZR (js_floor x) <= x < IZR (js_floor x) + 1.
Proof.
  unfold js_floor. rewrite minus_IZR. destruct (archimed x). simpl (IZR 1). lra.
Qed.

Lemma js_floor_nonpos (x : R) : x <= 0 -> (js_floor x <= 0)%Z.
Proof.
  intro H. destruct (js_floor_spec x). apply le_IZR. lra.
Qed.

Lemma js_floor_nonneg (x : R) : 0 <= x -> (0 <= js_floor x)%Z.
Proof.
  intro H. destruct (js_floor_spec x).
  assert (-1 < js_floor x)%Z by (apply lt_IZR; simpl; lra). lia.
Qed.

Lemma js_floor_lt (x : R) (n : Z) : x < IZR n -> (js_floor x < n)%Z.
Proof. intro H. destruct (js_floor_spec x). apply lt_IZR. lra. Qed.

Lemma INR_LOOKUP_SIZE : INR LOOKUP_SIZE = 360.
Proof. unfold LOOKUP_SIZE. rewrite INR_IZR_INZ. reflexivity. Qed.

Lemma lookup_index_bounds (a : R) : (0 <= lookup_index a <= 359)%Z.
Proof. unfold lookup_index, LOOKUP_SIZE. simpl Z.of_nat. lia. Qed.

Lemma nth_init_table (f : R -> R) (k : Z) :
  (0 <= k <= 359)%Z ->
  nth_error (init_table f) (Z.to_nat k) = Some (f (IZR k * PI * 2 / 360)).
Proof.
  intro Hk. unfold init_table. rewrite nth_error_map, nth_error_seq.
  replace (Nat.ltb (Z.to_nat k) LOOKUP_SIZE) with true
    by (symmetry; apply Nat.ltb_lt; unfold LOOKUP_SIZE; lia).
  cbn [option_map]. rewrite Nat.add_0_l, INR_LOOKUP_SIZE, INR_IZR_INZ, Z2Nat.id by lia.
  reflexivity.
Qed.

Lemma fastSin_entry (a : R) :
  fastSin a = Some (sin (IZR (lookup_index a) * PI * 2 / 360)).
Proof. apply nth_init_table, lookup_index_bounds. Qed.

Lemma fastCos_entry (a : R) :
  fastCos a = Some (cos (IZR (lookup_index a) * PI * 2 / 360)).
Proof. apply nth_init_table, lookup_index_bounds. Qed.

(** X11: fastSin and fastCos never return [undefined]: whatever the finite
    angle, the clamped index hits an entry of the 360-entry table, a value
    in [[-1, 1]]. *)
Theorem fast_trig_defined (angle : R) :
  exists s c, fastSin angle = Some s /\ fastCos angle = Some c /\
              -1 <= s <= 1 /\ -1 <= c <= 1.
Proof.
  eexists _, _. split; [apply fastSin_entry|]. split; [apply fastCos_entry|].
  split; [apply SIN_bound|apply COS_bound].
Qed.

Lemma nonpos_mul_nonneg (a b : R) : a <= 0 -> 0 <= b -> a * b <= 0.
Proof. intros; nra. Qed.

Lemma two_pi_pos : 0 < PI * 2.
Proof. pose proof PI_RGT_0. lra. Qed.

Lemma lookup_index_nonpos (angle : R) : angle <= 0 -> lookup_index angle = 0%Z.
Proof.
  intro Ha. pose proof two_pi_pos as Hb.
  set (b := PI * 2) in *.
  assert (Hq : angle / b <= 0).
  { unfold Rdiv. apply nonpos_mul_nonneg; [exact Ha|].
    apply Rlt_le, Rinv_0_lt_compat, Hb. }
  assert (Ht : angle / b <= IZR (js_trunc (angle / b))).
  { unfold js_trunc. destruct (Rle_dec 0 (angle / b)) as [H0|H0].
    - assert (E : angle / b = 0) by lra. rewrite E.
      pose proof (js_floor_nonneg 0 (Rle_refl 0)). apply IZR_le in H. simpl in H. lra.
    - rewrite opp_IZR. destruct (js_floor_spec (- (angle / b))). lra. }
  assert (Hr : js_fmod angle b <= 0).
  { unfold js_fmod.
    assert (angle = angle / b * b) by (field; lra).
    assert (angle / b * b <= IZR (js_trunc (angle / b)) * b)
      by (apply Rmult_le_compat_r; lra).
    lra. }
  unfold lookup_index. fold b.
  assert (js_floor (js_fmod angle b / b * INR LOOKUP_SIZE) <= 0)%Z.
  { apply js_floor_nonpos. rewrite INR_LOOKUP_SIZE.
    apply nonpos_mul_nonneg; [|lra]. unfold Rdiv. apply nonpos_mul_nonneg; [exact Hr|].
    apply Rlt_le, Rinv_0_lt_compat, Hb. }
  lia.
Qed.

(** X12: for an angle of 0 or below, fastSin returns 0 and fastCos returns
    1: the remainder [angle % (2 * PI)] keeps the sign of the angle, and the
    negative index is clamped to entry 0. *)
Theorem fast_trig_nonpositive (angle : R) :
  angle <= 0 -> fastSin angle = Some 0 /\ fastCos angle = Some 1.
Proof.
  intro Ha. rewrite fastSin_entry, fastCos_entry, lookup_index_nonpos by exact Ha.
  replace (IZR 0 * PI * 2 / 360) with 0 by (simpl; field).
  rewrite sin_0, cos_0. split; reflexivity.
Qed.

Lemma fast_trig_nonpositive_witness :
  -3 <= 0 /\ fastSin (-3) = Some 0 /\ fastCos (-3) = Some 1.
Proof.
  assert (H : -3 <= 0) by lra. split; [exact H|].
  exact (fast_trig_nonpositive (-3) H).
Defined.

(** X13: a moving dot or swimming fish given a speed of 0 or below (with a
    non-negative animation time) stays put: the dot sits at
    [(centerX + faceWidth * 0.6, centerY)] instead of orbiting, and the fish
    at [(baseX, baseY + 20)]. [ORBIT_SPEEDS.DOT_SPEED_2] (-1.5) and
    [FISH_SPEED_2] (-0.3) are such speeds. *)
Theorem reverse_speed_parts_stand_still (centerX centerY baseX baseY baseSize
    time speed faceWidth : R) :
  0 <= time -> speed <= 0 ->
  movingDotPosition centerX centerY time speed faceWidth
    = (Fin (centerX + faceWidth * 0.6), Fin centerY) /\
  fst (swimmingFishPosition baseX baseY baseSize time speed faceWidth)
    = (Fin baseX, Fin (baseY + 20)).
Proof.
  intros Ht Hs.
  assert (H1 : time * speed <= 0) by nra.
  assert (H2 : time * speed * 0.7 <= 0) by nra.
  destruct (fast_trig_nonpositive _ H1) as [S1 C1].
  destruct (fast_trig_nonpositive _ H2) as [S2 C2].
  unfold movingDotPosition, swimmingFishPosition. cbv zeta.
  rewrite S1, C1, C2. simpl. split; f_equal; f_equal; ring.
Qed.

Lemma reverse_speed_parts_stand_still_witness :
  movingDotPosition 100 80 2 DOT_SPEED_2 50 = (Fin (100 + 50 * 0.6), Fin 80).
Proof.
  refine (proj1 (reverse_speed_parts_stand_still 100 80 0 0 1 2 DOT_SPEED_2 50 _ _));
    unfold DOT_SPEED_2; lra.
Defined.

End MathUtilsFacts.

Module FilterRegistryFacts.
Import FilterRegistry.
Local Open Scope string_scope.

Lemma map_get_in (m : fmap) (k : String.string) (v : filter) :
  In (k, v) m -> exists w, map_get m k = Some w.
Proof.
  induction m as [|[k' v'] m IH]; intro H; [destruct H|].
  simpl. destruct (String.eqb k k') eqn:E; [eexists; reflexivity|].
  destruct H as [H|H].
  - injection H; intros; subst. rewrite String.eqb_refl in E. discriminate.
  - apply IH, H.
Qed.

Lemma setFilter_invariant (names : list String.string) : forall r,
  (currentFilterName r = "none" \/ exists f, current_filter r = Some f) ->
  let r' := fold_left (fun r n => fst (setFilter r n)) names r in
  filters r' = filters r /\
  (currentFilterName r' = "none" \/ exists f, current_filter r' = Some f).
Proof.
  induction names as [|n rest IH]; intros r H; [split; [reflexivity|exact H]|].
  cbn [fold_left].
  assert (H1 : filters (fst (setFilter r n)) = filters r /\
               (currentFilterName (fst (setFilter r n)) = "none" \/
                exists f, current_filter (fst (setFilter r n)) = Some f)).
  { unfold setFilter. destruct (String.eqb_spec n "none") as [En|En]; simpl.
    - split; [reflexivity|left; exact En].
    - destruct (map_has (filters r) n) eqn:Eh; simpl; [|split; [reflexivity|exact H]].
      split; [reflexivity|right]. unfold current_filter, map_has in *; simpl.
      destruct (map_get (filters r) n); [eexists; reflexivity|discriminate]. }
  destruct H1 as [F1 V1]. destruct (IH _ V1) as [A B].
  split; [rewrite A; exact F1|exact B].
Qed.

(** X15: after any sequence of setFilter calls on a new FilterRenderer, the
    registry is the one initFilters built and the current filter name is
    ['none'] or names a registered filter, so render finds a filter for
    every name but ['none']. *)
Theorem current_filter_valid (names : list String.string) :
  filters (fold_left (fun r n => fst (setFilter r n)) names renderer_init)
    = initFilters [] /\
  (currentFilterName (fold_left (fun r n => fst (setFilter r n)) names renderer_init)
     = "none" \/
   exists f, current_filter
               (fold_left (fun r n => fst (setFilter r n)) names renderer_init) = Some f).
Proof. apply (setFilter_invariant names renderer_init). left. reflexivity. Qed.

(** X16: every name getAvailableFilters lists is accepted by setFilter on
    the same renderer: the call returns true and makes that name current,
    changing nothing else. *)
Theorem available_filters_selectable (r : renderer) (e : availableFilter) :
  In e (getAvailableFilters r) ->
  setFilter r (af_name e)
  = ({| filters := filters r; currentFilterName := af_name e;
        animationTime := animationTime r |}, true).
Proof.
  intro H. unfold setFilter. simpl in H. destruct H as [H|H].
  - subst e. reflexivity.
  - apply in_map_iff in H. destruct H as [[name f] [He Hin]]. subst e. simpl.
    destruct (map_get_in _ _ _ Hin) as [w Hw].
    unfold map_has. rewrite Hw, orb_true_r. reflexivity.
Qed.

Lemma available_filters_selectable_witness :
  In {| af_name := "none"; af_displayName := "No Filter"; af_type := "none";
        af_description := None |} (getAvailableFilters renderer_init) /\
  snd (setFilter renderer_init "none") = true.
Proof.
  assert (H : In {| af_name := "none"; af_displayName := "No Filter"; af_type := "none";
                    af_description := None |} (getAvailableFilters renderer_init))
    by (left; reflexivity).
  split; [exact H|].
  pose proof (available_filters_selectable renderer_init _ H) as E.
  cbn [af_name] in E. rewrite E. reflexivity.
Defined.

End FilterRegistryFacts.

Module ModelLoaderFacts.
Import Geometry ModelLoader.

Lemma safari_attempts_complete (est : nat -> estimateResult) :
  forall remaining attempt f,
  In f (safari_attempts est attempt remaining) ->
  (468 <= length (scaledMesh f))%nat.
Proof.
  induction remaining as [|r IH]; intros attempt f H; [destruct H|].
  cbn [safari_attempts] in H. destruct (est attempt) as [|faces].
  - destruct (maxAttempts <=? attempt)%nat; [destruct H|exact (IH _ _ H)].
  - destruct faces as [[|g gs]|]; [exact (IH _ _ H)| |exact (IH _ _ H)].
    remember (validFaces (g :: gs)) as v eqn:Ev.
    destruct v as [|v vs]; [exact (IH _ _ H)|].
    rewrite Ev in H. unfold validFaces in H. apply filter_In in H.
    apply Nat.leb_le, H.
Qed.

Lemma cull_defined (f : face) (w h : Z) :
  (346 <= length (scaledMesh f))%nat ->
  exists b, shouldCullAnimation f w h = Ok b.
Proof.
  intro H. unfold shouldCullAnimation, getFaceDimensions, getFacePoints.
  cbn [rightEye leftEye foreheadCenter noseTip].
  repeat match goal with
  | |- context [nth_error (scaledMesh f) ?i] =>
      let E := fresh "E" in
      destruct (nth_error (scaledMesh f) i) as [[[? ?] ?]|] eqn:E;
      [|apply nth_error_None in E;
        unfold NOSE_TIP, LEFT_EYE, RIGHT_EYE, FOREHEAD_CENTER in E; lia]
  end.
  eexists. reflexivity.
Qed.

Lemma render_faces_defined (canvas filter : Type)
    (draw : filter -> face -> canvas -> canvas * bool) (filt : filter) (w h : Z) :
  forall faces ctx,
  Forall (fun f => (468 <= length (scaledMesh f))%nat) faces ->
  exists ctx', Renderer.render_faces canvas filter draw filt w h faces ctx = Ok ctx'.
Proof.
  induction faces as [|f rest IH]; intros ctx H; [eexists; reflexivity|].
  inversion H as [|? ? Hf Hrest]; subst.
  simpl. unfold Renderer.render_face.
  destruct (cull_defined f w h ltac:(lia)) as [b Hb]. rewrite Hb. simpl.
  destruct b; [apply IH, Hrest|].
  destruct (draw filt f ctx) as [ctx1 thr]. simpl. apply IH, Hrest.
Qed.

(** X17: on Safari, detectFaces returns an array (never a falsy value) whose
    faces all have at least 468 mesh points, so FilterRenderer.render over
    them never throws: every face is either culled or drawn, whatever the
    filter, canvas size or draw function. *)
Theorem safari_faces_render (est : nat -> estimateResult) (modelLoaded : bool)
    (videoWidth : Z) (canvas filter : Type)
    (draw : filter -> face -> canvas -> canvas * bool) (current : option filter)
    (w h : Z) (ctx : canvas) :
  exists faces,
    detectFaces modelLoaded videoWidth true est = Some faces /\
    Forall (fun f => (468 <= length (scaledMesh f))%nat) faces /\
    exists ctx', Renderer.render canvas filter draw current w h faces ctx = Ok ctx'.
Proof.
  assert (Hall : forall faces, (forall f, In f faces -> (468 <= length (scaledMesh f))%nat) ->
    Forall (fun f => (468 <= length (scaledMesh f))%nat) faces /\
    exists ctx', Renderer.render canvas filter draw current w h faces ctx = Ok ctx').
  { intros faces Hf. assert (HF : Forall (fun f => (468 <= length (scaledMesh f))%nat) faces)
      by (apply Forall_forall, Hf).
    split; [exact HF|]. rewrite RendererFacts.render_as_faces.
    destruct current as [filt|]; [|eexists; reflexivity].
    apply render_faces_defined, HF. }
  unfold detectFaces. destruct (negb modelLoaded || (videoWidth =? 0)%Z).
  - exists []. split; [reflexivity|]. apply Hall. intros f [].
  - eexists. split; [reflexivity|]. apply Hall.
    intros f Hf. exact (safari_attempts_complete est _ _ _ Hf).
Qed.

End ModelLoaderFacts.

Module CameraFacts.
Import Camera.

Lemma degrade_ideal_iter (lo step : Z) (v : option Z) (n : nat) :
  (0 < lo)%Z -> (0 <= step)%Z -> (1 <= n)%nat ->
  Nat.iter n (degrade_ideal lo step) v =
  match v with
  | Some w => if (w =? 0)%Z then Some w else Some (Z.max lo (w - step * Z.of_nat n))
  | None => None
  end.
Proof.
  intros Hlo Hs Hn. induction n as [|n IH]; [lia|].
  destruct n as [|n].
  - simpl. destruct v as [w|]; [|reflexivity]. unfold degrade_ideal.
    destruct (w =? 0)%Z; [reflexivity|]. f_equal. f_equal. lia.
  - rewrite Nat.iter_succ, IH by lia.
    destruct v as [w|]; [|reflexivity].
    destruct (Z.eqb_spec w 0) as [E|E]; [subst; reflexivity|].
    unfold degrade_ideal.
    destruct (Z.eqb_spec (Z.max lo (w - step * Z.of_nat (S n))) 0); [lia|].
    f_equal. lia.
Qed.

Lemma iter_degrade_fields (c : videoConstraints) (n : nat) :
  width_ideal (Nat.iter n degradeConstraints c) = Nat.iter n (degrade_ideal 240 80) (width_ideal c) /\
  height_ideal (Nat.iter n degradeConstraints c) = Nat.iter n (degrade_ideal 180 60) (height_ideal c) /\
  frameRate_ideal (Nat.iter n degradeConstraints c) = Nat.iter n (degrade_ideal 10 5) (frameRate_ideal c) /\
  width_max (Nat.iter n degradeConstraints c) = width_max c /\
  height_max (Nat.iter n degradeConstraints c) = height_max c.
Proof.
  induction n as [|n IH]; [repeat split|].
  destruct IH as (A & B & C & D & E). simpl. rewrite A, B, C, D, E. repeat split.
Qed.

(** X18: [n >= 1] rounds of degradeConstraints take a non-zero ideal width
    [w] to [max(240, w - 80 n)], a non-zero ideal height [h] to
    [max(180, h - 60 n)] and a non-zero ideal frame rate [r] to
    [max(10, r - 5 n)]; absent or zero ideals and the [max] bounds are left
    unchanged. *)
Theorem degrade_rounds (c : videoConstraints) (n : nat) :
  (1 <= n)%nat ->
  width_ideal (Nat.iter n degradeConstraints c) =
    match width_ideal c with
    | Some w => if (w =? 0)%Z then Some w else Some (Z.max 240 (w - 80 * Z.of_nat n))
    | None => None
    end /\
  height_ideal (Nat.iter n degradeConstraints c) =
    match height_ideal c with
    | Some h => if (h =? 0)%Z then Some h else Some (Z.max 180 (h - 60 * Z.of_nat n))
    | None => None
    end /\
  frameRate_ideal (Nat.iter n degradeConstraints c) =
    match frameRate_ideal c with
    | Some r => if (r =? 0)%Z then Some r else Some (Z.max 10 (r - 5 * Z.of_nat n))
    | None => None
    end /\
  width_max (Nat.iter n degradeConstraints c) = width_max c /\
  height_max (Nat.iter n degradeConstraints c) = height_max c.
Proof.
  intro Hn. destruct (iter_degrade_fields c n) as (A & B & C & D & E).
  rewrite A, B, C, D, E.
  rewrite !degrade_ideal_iter by lia. repeat split.
Qed.

Lemma degrade_rounds_witness :
  (1 <= 2)%nat /\
  width_ideal (Nat.iter 2 degradeConstraints (CAMERA_CONFIG SAFARI_CONSTRAINTS)) = Some 480%Z.
Proof.
  split; [lia|].
  rewrite (proj1 (degrade_rounds (CAMERA_CONFIG SAFARI_CONSTRAINTS) 2 ltac:(lia))).
  reflexivity.
Defined.

Definition degrade_in (r : constraintsRef) (s : store) : store :=
  store_set s r (degradeConstraints (s r)).

Lemma iter_degrade_in (r : constraintsRef) (j : nat) : forall s r',
  Nat.iter j (degrade_in r) s r' =
  if ref_eqb r' r then Nat.iter j degradeConstraints (s r) else s r'.
Proof.
  induction j as [|j IH]; intros s r'.
  - simpl. destruct r, r'; reflexivity.
  - rewrite Nat.iter_succ. unfold degrade_in at 1, store_set.
    rewrite !IH. destruct r, r'; reflexivity.
Qed.

Lemma access_attempts_spec {stream : Type} (isSafari : bool)
    (gum : nat -> videoConstraints -> gumResult stream) (r : constraintsRef)
    (st : stream) :
  forall j s a m,
  (1 <= a)%nat -> (a + j <= RETRY_ATTEMPTS)%nat -> (j < m)%nat ->
  (forall i c, (a <= i < a + j)%nat -> gum i c = GThrow) ->
  (forall c, gum (a + j)%nat c = GStream (Some st)) ->
  access_attempts isSafari gum s r a m =
  (if isSafari then Nat.iter j (degrade_in r) s else s, Geometry.Ok st).
Proof.
  induction j as [|j IH]; intros s a m Ha Hj Hm Hthrow Hok.
  - destruct m as [|m]; [lia|]. simpl. rewrite Nat.add_0_r in Hok. rewrite Hok.
    destruct isSafari; reflexivity.
  - destruct m as [|m]; [lia|]. cbn [access_attempts].
    rewrite (Hthrow a (s r)) by lia.
    assert (Hlt : (a <? RETRY_ATTEMPTS)%nat = true) by (apply Nat.ltb_lt; lia).
    assert (Hge : (RETRY_ATTEMPTS <=? a)%nat = false) by (apply Nat.leb_gt; lia).
    rewrite Hlt, Hge.
    assert (Ht' : forall i c, (S a <= i < S a + j)%nat -> gum i c = GThrow)
      by (intros i c Hi; apply Hthrow; lia).
    assert (Hok' : forall c, gum (S a + j)%nat c = GStream (Some st))
      by (intro c; replace (S a + j)%nat with (a + S j)%nat by lia; apply Hok).
    destruct isSafari; cbn [andb].
    + rewrite (IH _ (S a) m) by (assumption || lia). rewrite Nat.iter_succ_r. reflexivity.
    + apply (IH _ (S a) m); (assumption || lia).
Qed.

(** X19: when the first [k <= 2] getUserMedia attempts throw and the next
    yields a stream, accessCamera returns that stream; on Safari it has
    degraded the constraints object [k] times in place, and since
    getCameraConstraints hands out the [CAMERA_CONFIG] object itself, that
    shared entry stays degraded for later setups. Off Safari it retries
    without touching the constraints. *)
Theorem accessCamera_retries {stream : Type} (isSafari : bool)
    (gum : nat -> videoConstraints -> gumResult stream) (s : store)
    (r : constraintsRef) (k : nat) (st : stream) :
  (k <= 2)%nat ->
  (forall i c, (1 <= i <= k)%nat -> gum i c = GThrow) ->
  (forall c, gum (S k) c = GStream (Some st)) ->
  snd (accessCamera isSafari gum s r) = Geometry.Ok st /\
  forall r', fst (accessCamera isSafari gum s r) r' =
    if ref_eqb r' r then (if isSafari then Nat.iter k degradeConstraints (s r) else s r)
    else s r'.
Proof.
  intros Hk Hthrow Hok. unfold accessCamera.
  rewrite (access_attempts_spec isSafari gum r st k s 1 RETRY_ATTEMPTS).
  - split; [reflexivity|]. intro r'. destruct isSafari.
    + apply iter_degrade_in.
    + destruct (ref_eqb r' r) eqn:E; [|reflexivity].
      destruct r, r'; try discriminate; reflexivity.
  - lia.
  - unfold RETRY_ATTEMPTS. lia.
  - unfold RETRY_ATTEMPTS. lia.
  - intros i c Hi. apply Hthrow. lia.
  - intro c. apply Hok.
Qed.

Definition gum_third (i : nat) (_ : videoConstraints) : gumResult unit :=
  if (i <=? 2)%nat then GThrow else GStream (Some tt).

Lemma accessCamera_retries_witness :
  snd (accessCamera true gum_third CAMERA_CONFIG IOS_CONSTRAINTS) = Geometry.Ok tt /\
  width_ideal (fst (accessCamera true gum_third CAMERA_CONFIG IOS_CONSTRAINTS)
                 IOS_CONSTRAINTS) = Some 240%Z.
Proof.
  destruct (accessCamera_retries true gum_third CAMERA_CONFIG IOS_CONSTRAINTS 2 tt)
    as [H1 H2].
  - lia.
  - intros i c Hi. unfold gum_third.
    rewrite (proj2 (Nat.leb_le i 2)) by lia. reflexivity.
  - intro c. reflexivity.
  - split; [exact H1|]. rewrite H2. reflexivity.
Defined.

End CameraFacts.

Module PerformanceDetectionFacts.
Import BrowserDetector PerformanceDetection.
Local Open Scope string_scope.

Lemma ios_is_safari (ua : String.string) : isIOS ua = true -> isSafari ua = true.
Proof.
  unfold isIOS, isSafari, contains_any. simpl. intro H.
  destruct (contains "iPad" ua), (contains "iPhone" ua), (contains "iPod" ua);
    simpl in *; try discriminate; apply orb_true_r.
Qed.

(** X20: a fresh performance detection (no usable cache entry) on an iOS
    user agent always settles on ['low'], whatever the measured duration,
    and on any Safari or mobile user agent it never settles on ['high']. *)
Theorem detectPerformance_platform_caps (ua : String.string) (now : Z)
    (testDuration : Q) (canWrite : bool) :
  (isIOS ua = true -> fst (detectPerformance ua now NoCache testDuration canWrite) = "low") /\
  (isSafari ua || isMobile ua = true ->
   fst (detectPerformance ua now NoCache testDuration canWrite) <> "high").
Proof.
  unfold detectPerformance, level_for. cbv zeta. cbn [fst]. split.
  - intro Hi. rewrite (ios_is_safari ua Hi), Hi.
    destruct (isMobile ua), (isOlderiOS ua);
      repeat match goal with |- context [Qlt_bool ?a ?b] => destruct (Qlt_bool a b) end;
      reflexivity.
  - intro H.
    destruct (isSafari ua), (isMobile ua), (isIOS ua), (isOlderiOS ua);
      simpl in H; try discriminate;
      repeat match goal with |- context [Qlt_bool ?a ?b] => destruct (Qlt_bool a b) end;
      cbn; discriminate.
Qed.

End PerformanceDetectionFacts.
